(** * pdf-autofiller: a shallow embedding of [pdf_autofiller.py]

    The development follows the source file top to bottom: the Python
    string primitives the program calls, the chat-completion client and
    the small state-and-exception monad the two AI helpers run in
    ([get_field_type_from_ai], [get_data_from_ai]), the pdfrw object
    model used by [fill_pdf_form], and [main].

    Text.  A Python [str] is modelled as a [string] whose characters are
    read as the code points U+0000..U+00FF; [isspace] and [lower_char]
    below are Python's [str.isspace] and [str.lower] on that range. *)

From Stdlib Require Import ZArith NArith Ascii String List QArith.QArith_base DecimalString.
From stdpp Require Import base option list strings gmap.

Local Open Scope string_scope.
Local Open Scope list_scope.

(** ** Python string primitives *)

Module Py.

Definition chars (s : string) : list ascii := list_ascii_of_string s.
Definition text (l : list ascii) : string := string_of_list_ascii l.

Definition code (c : ascii) : N := N_of_ascii c.

(** [str.isspace] for one character. *)
Definition isspace (c : ascii) : bool :=
  let n := code c in
  ((9 <=? n) && (n <=? 13) || (28 <=? n) && (n <=? 32)
   || (n =? 133) || (n =? 160))%N.

(** [str.lower] for one character: A-Z, and the Latin-1 capitals
    U+00C0..U+00DE without the multiplication sign U+00D7. *)
Definition lower_char (c : ascii) : ascii :=
  let n := code c in
  if ((65 <=? n) && (n <=? 90)
      || (192 <=? n) && (n <=? 222) && negb (n =? 215))%N
  then ascii_of_N (n + 32) else c.

Fixpoint dropwhile (p : ascii -> bool) (l : list ascii) : list ascii :=
  match l with
  | [] => []
  | c :: l' => if p c then dropwhile p l' else l
  end.

Definition lstrip_by (p : ascii -> bool) (l : list ascii) : list ascii :=
  dropwhile p l.

Definition rstrip_by (p : ascii -> bool) (l : list ascii) : list ascii :=
  rev (dropwhile p (rev l)).

Definition strip_by (p : ascii -> bool) (l : list ascii) : list ascii :=
  rstrip_by p (lstrip_by p l).

(** [s.strip()] *)
Definition strip (s : string) : string := text (strip_by isspace (chars s)).

Definition mem_char (c : ascii) (set : string) : bool :=
  existsb (Ascii.eqb c) (chars set).

(** [s.strip(set)] *)
Definition strip_chars (set : string) (s : string) : string :=
  text (strip_by (fun c => mem_char c set) (chars s)).

(** [s.lower()] *)
Definition lower (s : string) : string := text (map lower_char (chars s)).

(** [s.replace(a, b)] for one-character [a] and [b]. *)
Definition replace (a b : ascii) (s : string) : string :=
  text (map (fun c => if Ascii.eqb c a then b else c) (chars s)).

Fixpoint starts_with (sub l : list ascii) : bool :=
  match sub, l with
  | [], _ => true
  | _ :: _, [] => false
  | a :: sub', c :: l' => Ascii.eqb a c && starts_with sub' l'
  end.

Fixpoint find_in (sub l : list ascii) : bool :=
  starts_with sub l ||
  match l with
  | [] => false
  | _ :: l' => find_in sub l'
  end.

(** [sub in s] on strings. *)
Definition contains (sub s : string) : bool := find_in (chars sub) (chars s).

(** [x in l] on a list of strings. *)
Definition in_list (x : string) (l : list string) : bool :=
  existsb (String.eqb x) l.

(** [s[1:-1]] *)
Definition slice_1_m1 (s : string) : string :=
  text (removelast (tl (chars s))).

(** [sep.join(l)] *)
Fixpoint join (sep : string) (l : list string) : string :=
  match l with
  | [] => ""
  | [x] => x
  | x :: l' => x ++ sep ++ join sep l'
  end.

(** [str(n)] for an [int]. *)
Definition str_int (z : Z) : string := NilZero.string_of_int (Z.to_int z).

(** [bool(s)] for a [str]. *)
Definition truthy (s : string) : bool := negb (String.eqb s "").

End Py.

Definition dquote : string := String (ascii_of_N 34) "".
Definition newline : string := String (ascii_of_N 10) "".
Definition tab : string := String (ascii_of_N 9) "".

(** ** Data model *)

(** A value of the field-value mapping.  [get_data_from_ai] produces a
    [bool] or a [str]; [fill_pdf_form] accepts any object and calls
    [str] on the ones that are not [bool], so an [int] is kept to have
    a value whose string form is not itself. *)
Inductive Value :=
  | VBool (b : bool)
  | VStr (s : string)
  | VInt (z : Z).

(** [isinstance(v, bool)] *)
Definition isinstance_bool (v : Value) : bool :=
  match v with VBool _ => true | _ => false end.

(** [isinstance(v, str)] *)
Definition isinstance_str (v : Value) : bool :=
  match v with VStr _ => true | _ => false end.

(** [str(v)] *)
Definition py_str (v : Value) : string :=
  match v with
  | VBool true => "True"
  | VBool false => "False"
  | VStr s => s
  | VInt z => Py.str_int z
  end.

(** pdfrw leaf objects; each of them is a subclass of [str].  A
    [PdfString] carries its raw form with the delimiters, [(Jane)] or
    [<4a616e65>]; [PyStr] is a plain Python [str] stored in a dictionary. *)
Inductive PdfObject :=
  | PdfName (name : string)
  | PdfString (raw : string)
  | PdfObj (repr : string)
  | PyStr (s : string).

(** The [str] value of a pdfrw object: [PdfName('Yes')] is ['/Yes']. *)
Definition obj_str (o : PdfObject) : string :=
  match o with
  | PdfName n => "/" ++ n
  | PdfString r => r
  | PdfObj r => r
  | PyStr s => s
  end.

Abbreviation PdfDict := (gmap string PdfObject).

(** Annotation dictionaries are objects of the parsed file: a page lists
    references to them, and one dictionary may be listed more than once. *)
Record PdfPage := { Annots : option (list nat) }.

Record PdfDocument := {
  objects : gmap nat PdfDict;
  pages : list PdfPage;
  AcroForm : option PdfDict  (* [Root.AcroForm] *)
}.

(** What [yaml.safe_load] gives for the configuration file: [None] for
    an empty document, or a mapping from section names to [None] (a key
    with nothing under it) or to a mapping of settings given as strings. *)
Abbreviation Config :=
  (option (gmap string (option (gmap string string)))).

Inductive File :=
  | YamlFile (cfg : Config)
  | PdfFile (doc : PdfDocument).

(** ** Exceptions, the world and the monad of the program *)

Inductive ExcClass :=
  | APIError | IndexError | AttributeError
  | FileNotFoundError | ValueError | YAMLError | PdfError.

(** An exception instance; [exc_msg] is [str(e)]. *)
Record Exception := { exc_class : ExcClass; exc_msg : string }.

Inductive Result (A : Type) :=
  | Returned (a : A)
  | Raised (e : Exception).
Arguments Returned {A} a.
Arguments Raised {A} e.

Record World := {
  api_calls : nat;               (* requests sent to the service so far *)
  stdout : list string;          (* lines printed, oldest first *)
  fs : gmap string File          (* the files on disk *)
}.

Definition M (A : Type) : Type := World -> Result A * World.

Definition ret {A} (a : A) : M A := fun w => (Returned a, w).

Definition bind {A B} (m : M A) (k : A -> M B) : M B :=
  fun w =>
    match m w with
    | (Returned a, w') => k a w'
    | (Raised e, w') => (Raised e, w')
    end.

Notation "x <- m ;; k" := (bind m (fun x => k))
  (at level 100, m at next level, k at level 200, right associativity).
Notation "m ;;; k" := (bind m (fun _ => k))
  (at level 100, k at level 200, right associativity).

Definition raise {A} (c : ExcClass) (msg : string) : M A :=
  fun w => (Raised {| exc_class := c; exc_msg := msg |}, w).

(** [try: body  except classes as e: handler e] *)
Definition try_except {A} (body : M A) (caught : ExcClass -> bool)
    (handler : Exception -> M A) : M A :=
  fun w =>
    match body w with
    | (Returned a, w') => (Returned a, w')
    | (Raised e, w') =>
        if caught (exc_class e) then handler e w' else (Raised e, w')
    end.

(** [except Exception]: every class above derives from [Exception]. *)
Definition any_Exception (c : ExcClass) : bool := true.

Definition print (line : string) : M unit :=
  fun w => (Returned tt,
            {| api_calls := api_calls w;
               stdout := stdout w ++ [line];
               fs := fs w |}).

(** ** The chat-completion client *)

Record Message := { role : string; content : string }.

Record Request := {
  req_model : string;
  req_messages : list Message;
  req_temperature : Q
}.

(** One choice of a completion; [message.content] may be [None]. *)
Record Choice := { message_content : option string }.

Record Response := { choices : list Choice }.

Inductive Outcome :=
  | Responds (r : Response)
  | Fails (e : Exception).

(** The service is an opaque capability: what it does with the n-th
    request it receives is up to it. *)
Definition Client := nat -> Request -> Outcome.

(** [client.chat.completions.create(model=.., messages=.., temperature=..)] *)
Definition chat_completions_create (client : Client) (req : Request)
    : M Response :=
  fun w =>
    let w' := {| api_calls := S (api_calls w);
                 stdout := stdout w;
                 fs := fs w |} in
    match client (api_calls w) req with
    | Responds r => (Returned r, w')
    | Fails e => (Raised e, w')
    end.

(** [response.choices[0].message.content] *)
Definition first_choice_content (r : Response) : M (option string) :=
  match choices r with
  | [] => raise IndexError "list index out of range"
  | c :: _ => ret (message_content c)
  end.

(** Looking up a [str] method on [content]: fails on [None]. *)
Definition str_method (name : string) (o : option string) : M string :=
  match o with
  | Some s => ret s
  | None => raise AttributeError
              ("'NoneType' object has no attribute '" ++ name ++ "'")
  end.

(** ** [get_field_type_from_ai] *)

Definition field_categories : list string :=
  [ "name"; "first_name"; "last_name"; "phone_number"; "email"; "address";
    "city"; "state"; "zip_code"; "country"; "company"; "job_title"; "date";
    "vehicle_year"; "vehicle_make"; "vehicle_model"; "vin"; "license_plate";
    "currency_amount"; "boolean"; "text" ].

Definition field_type_prompt (field_name : string) : string :=
  newline ++
  "    You are an expert at categorizing PDF form fields into specific data types." ++ newline ++
  "    Based on the field name " ++ dquote ++ field_name ++ dquote ++
  ", what is the most specific data type from the following list?" ++ newline ++
  "    List: " ++ Py.join ", " field_categories ++ newline ++
  "    Respond with only a single category from the list." ++ newline ++
  "    ".

Definition get_field_type_from_ai (field_name : string) (client : Client)
    (model : string) : M string :=
  let prompt := field_type_prompt field_name in
  try_except
    (response <- chat_completions_create client
        {| req_model := model;
           req_messages :=
             [ {| role := "system";
                  content := "You are an expert at categorizing PDF form fields." |};
               {| role := "user"; content := prompt |} ];
           req_temperature := Qmake 0 1 |} ;;
     answer <- first_choice_content response ;;
     raw <- str_method "strip" answer ;;
     let category :=
       Py.replace "_" " " (Py.lower (Py.strip raw)) in
     ret (if Py.in_list (Py.replace " " "_" category) field_categories
          then category else "text"))
    any_Exception
    (fun e =>
       print ("An error occurred while contacting OpenAI for field detection: "
              ++ exc_msg e) ;;;
       ret "text").

(** ** [get_data_from_ai] *)

Definition data_prompt (field_name field_type : string) : string :=
  newline ++
  "    You are an expert at generating realistic sample data for filling out forms." ++ newline ++
  "    Based on the field name " ++ dquote ++ field_name ++ dquote ++
  " and its determined type " ++ dquote ++ field_type ++ dquote ++
  ", generate a single, realistic data value." ++ newline ++
  "    - Your response must be ONLY the data value itself, with no extra text, labels, or quotation marks." ++ newline ++
  "    - For a 'date', use YYYY-MM-DD format." ++ newline ++
  "    - For a 'boolean', respond with either 'Yes' or 'Off'." ++ newline ++
  "    - For a 'currency_amount', provide a number like '12345.00'." ++ newline ++
  "    Generate a value for a field of type: " ++ field_type ++ newline ++
  "    ".

(** The argument of the call to [strip]: a space and a double quote. *)
Definition strip_set : string := " " ++ dquote.

Definition get_data_from_ai (field_name field_type : string) (client : Client)
    (model : string) : M Value :=
  let prompt := data_prompt field_name field_type in
  try_except
    (response <- chat_completions_create client
        {| req_model := model;
           req_messages :=
             [ {| role := "system";
                  content := "You are a data generation engine." |};
               {| role := "user"; content := prompt |} ];
           req_temperature := Qmake 7 10 |} ;;
     answer <- first_choice_content response ;;
     raw <- str_method "strip" answer ;;
     let data_value := Py.strip_chars strip_set raw in
     if String.eqb field_type "boolean"
     then ret (VBool (if Py.contains "yes" (Py.lower data_value)
                      then true else false))
     else ret (VStr data_value))
    any_Exception
    (fun e =>
       print ("An error occurred while contacting OpenAI for data generation: "
              ++ exc_msg e) ;;;
       ret (VStr "")).

(** ** [fill_pdf_form] *)

(** [pdfrw.PdfReader(path)]: the parsed object graph of the file. *)
Definition pdfrw_PdfReader (path : string) : M PdfDocument :=
  fun w =>
    match fs w !! path with
    | Some (PdfFile doc) => (Returned doc, w)
    | _ => raise PdfError ("Could not read PDF file " ++ path) w
    end.

(** [annotation.get('/Subtype') == '/Widget' and annotation.get('/T')] *)
Definition is_named_widget (annotation : PdfDict) : bool :=
  match annotation !! "/Subtype" with
  | Some subtype => String.eqb (obj_str subtype) "/Widget"
  | None => false
  end
  &&
  match annotation !! "/T" with
  | Some t => Py.truthy (obj_str t)
  | None => false
  end.

(** [annotation['/T'][1:-1]] *)
Definition widget_field_name (annotation : PdfDict) : option string :=
  match annotation !! "/T" with
  | Some t => Some (Py.slice_1_m1 (obj_str t))
  | None => None
  end.

(** The dictionary handed to [annotation.update] for a mapped value. *)
Definition value_patch (field_value : Value) : PdfDict :=
  if isinstance_bool field_value then
    match field_value with
    | VBool true => <["/V" := PdfName "Yes"]> {["/AS" := PdfName "Yes"]}
    | _ => <["/V" := PdfName "Off"]> {["/AS" := PdfName "Off"]}
    end
  else {["/V" := PyStr (py_str field_value)]}.

(** The update the loop body performs on one annotation, if it performs
    one: [None] when [annotation.update] is not called. *)
Definition widget_update (data_to_fill : gmap string Value)
    (annotation : PdfDict) : option PdfDict :=
  if is_named_widget annotation then
    match widget_field_name annotation with
    | Some field_name =>
        match data_to_fill !! field_name with
        | Some field_value => Some (value_patch field_value)
        | None => None
        end
    | None => None
    end
  else None.

(** [d.update(patch)]: every key of [patch] is stored into [d]. *)
Definition dict_update (d patch : PdfDict) : PdfDict := patch ∪ d.

(** The body of the inner loop, as a function of the annotation it
    mutates. *)
Definition fill_annotation (data_to_fill : gmap string Value)
    (annotation : PdfDict) : PdfDict :=
  match widget_update data_to_fill annotation with
  | Some patch => dict_update annotation patch
  | None => annotation
  end.

(** One iteration of [for annotation in annotations], on the object
    store; a reference always denotes an object of the parsed file. *)
Definition fill_ref (data_to_fill : gmap string Value)
    (objs : gmap nat PdfDict) (ref : nat) : gmap nat PdfDict :=
  match objs !! ref with
  | Some annotation => <[ref := fill_annotation data_to_fill annotation]> objs
  | None => objs
  end.

(** One iteration of [for page in template_pdf.pages]. *)
Definition fill_page (data_to_fill : gmap string Value)
    (objs : gmap nat PdfDict) (page : PdfPage) : gmap nat PdfDict :=
  match Annots page with
  | None => objs
  | Some annotations => foldl (fill_ref data_to_fill) objs annotations
  end.

(** [bool(d)] for a dictionary. *)
Definition dict_truthy (d : PdfDict) : bool := negb (Nat.eqb (size d) 0).

Definition mark_need_appearances (acro : option PdfDict) : option PdfDict :=
  match acro with
  | Some d =>
      if dict_truthy d
      then Some (dict_update d {["/NeedAppearances" := PdfObj "true"]})
      else Some d
  | None => None
  end.

(** The in-memory part of [fill_pdf_form], after the template is read. *)
Definition fill_template (template_pdf : PdfDocument)
    (data_to_fill : gmap string Value) : PdfDocument :=
  {| objects := foldl (fill_page data_to_fill) (objects template_pdf)
                  (pages template_pdf);
     pages := pages template_pdf;
     AcroForm := mark_need_appearances (AcroForm template_pdf) |}.

Definition fill_pdf_form (input_pdf : string)
    (data_to_fill : gmap string Value) : M PdfDocument :=
  template_pdf <- pdfrw_PdfReader input_pdf ;;
  ret (fill_template template_pdf data_to_fill).

(** ** [main] *)

Record Args := {
  input_file : string;
  output_prefix : string;
  output_number : Z;
  config : string
}.

(** [os.path.exists(path)] *)
Definition os_path_exists (path : string) : M bool :=
  fun w => (Returned (bool_decide (is_Some (fs w !! path))), w).

Definition load_config (config_path : string) : M Config :=
  found <- os_path_exists config_path ;;
  if negb found
  then raise FileNotFoundError
         ("Configuration file not found at: " ++ config_path)
  else fun w =>
         match fs w !! config_path with
         | Some (YamlFile cfg) => (Returned cfg, w)
         | _ => raise YAMLError "could not parse the configuration file" w
         end.

(** [pdfrw.PdfWriter().write(output_filename, document)] on a path the
    process can open for writing; a failing [open] is not modelled, and
    a path stands for the file it names. *)
Definition PdfWriter_write (output_filename : string) (doc : PdfDocument)
    : M unit :=
  fun w => (Returned tt,
            {| api_calls := api_calls w;
               stdout := stdout w;
               fs := <[output_filename := PdfFile doc]> (fs w) |}).

(** [range(a, b)] *)
Definition py_range (a b : Z) : list Z :=
  map (fun k => (a + Z.of_nat k)%Z) (seq 0 (Z.to_nat (b - a))).

Fixpoint for_each {A} (l : list A) (body : A -> M unit) : M unit :=
  match l with
  | [] => ret tt
  | x :: l' => body x ;;; for_each l' body
  end.

(** [x.get(key)] is falsy: absent, or the empty string. *)
Definition get_falsy (d : gmap string string) (key : string) : bool :=
  match d !! key with
  | Some s => negb (Py.truthy s)
  | None => true
  end.

(** [x.get(key) or None] *)
Definition get_or_None (d : gmap string string) (key : string)
    : option string :=
  match d !! key with
  | Some s => if Py.truthy s then Some s else None
  | None => None
  end.

(** Looking up the method [get] on what [yaml.safe_load] gave: [None]
    has no such attribute. *)
Definition get_method {A} (o : option A) : M A :=
  match o with
  | Some d => ret d
  | None => raise AttributeError "'NoneType' object has no attribute 'get'"
  end.

Section Main.

(** [openai.OpenAI(api_key=.., base_url=..)] *)
Variable OpenAI : string -> option string -> Client.

(** PyPDF2's [PdfReader(path).get_fields()] on a parsed file: [None], or
    the keys of the dictionary of fields in iteration order. *)
Variable get_fields : PdfDocument -> option (list string).

Definition PyPDF2_get_fields (path : string) : M (option (list string)) :=
  fun w =>
    match fs w !! path with
    | Some (PdfFile doc) => (Returned (get_fields doc), w)
    | _ => raise PdfError ("Could not read PDF file " ++ path) w
    end.

(** [not fields] *)
Definition no_fields (fields : option (list string)) : bool :=
  match fields with
  | None | Some [] => true
  | Some (_ :: _) => false
  end.

(** The lines 98-108: the client and the model name, or [None] when
    the handler printed the error and [main] returned.  [config.get] and
    [openai_config.get] raise [AttributeError] on [None], which the
    handler does not catch. *)
Definition setup (args : Args) : M (option (Client * string)) :=
  try_except
    (config <- load_config (config args) ;;
     config_dict <- get_method config ;;
     let openai_config := default (Some ∅) (config_dict !! "openai") in
     openai_dict <- get_method openai_config ;;
     if get_falsy openai_dict "api_key"
     then raise ValueError "OpenAI API key is missing from config.yaml"
     else
       let client :=
         OpenAI (default "" (openai_dict !! "api_key"))
                (get_or_None openai_dict "endpoint_url") in
       let model_to_use :=
         default "gpt-3.5-turbo" (openai_dict !! "model") in
       print ("Using OpenAI model: " ++ model_to_use) ;;;
       ret (Some (client, model_to_use)))
    (fun c => match c with
              | FileNotFoundError | ValueError => true
              | _ => false
              end)
    (fun e => print ("Error: " ++ exc_msg e) ;;; ret None).

(** [for field_name in fields.keys()] of one document. *)
Fixpoint collect_data (client : Client) (model_to_use : string)
    (field_names : list string) (data_to_fill : gmap string Value)
    : M (gmap string Value) :=
  match field_names with
  | [] => ret data_to_fill
  | field_name :: rest =>
      field_type <- get_field_type_from_ai field_name client model_to_use ;;
      print ("  - Field: '" ++ field_name ++ "' -> AI Detected Type: '"
             ++ field_type ++ "'") ;;;
      data_value <- get_data_from_ai field_name field_type client model_to_use ;;
      print ("    - AI Generated Data: '" ++ py_str data_value ++ "'") ;;;
      collect_data client model_to_use rest
        (<[field_name := data_value]> data_to_fill)
  end.

Definition generate_document (args : Args) (client : Client)
    (model_to_use : string) (field_names : list string) (i : Z) : M unit :=
  print (newline ++ "--- Generating Document " ++ Py.str_int i ++ " ---") ;;;
  data_to_fill <- collect_data client model_to_use field_names ∅ ;;
  filled_template <- fill_pdf_form (input_file args) data_to_fill ;;
  let output_filename :=
    (output_prefix args ++ "-" ++ Py.str_int i ++ ".pdf")%string in
  PdfWriter_write output_filename filled_template ;;;
  print (newline ++ "Successfully generated '" ++ output_filename ++ "'").

Definition main (args : Args) : M unit :=
  ready <- setup args ;;
  match ready with
  | None => ret tt
  | Some (client, model_to_use) =>
      found <- os_path_exists (input_file args) ;;
      if negb found
      then print ("Error: Input file not found at '" ++ input_file args ++ "'")
      else
        print ("Reading fields from '" ++ input_file args ++ "'...") ;;;
        fields <- PyPDF2_get_fields (input_file args) ;;
        if no_fields fields
        then print "No fields to fill in the provided PDF."
        else
          let field_names := default [] fields in
          print ("Found " ++ Py.str_int (Z.of_nat (length field_names))
                 ++ " fields. Detecting field types and generating data with AI...") ;;;
          for_each (py_range 1 (output_number args + 1))
            (generate_document args client model_to_use field_names)
  end.

End Main.

(** * Properties *)

(** ** Vocabulary of the statements *)

(** The request [get_field_type_from_ai] sends. *)
Definition field_type_request (field_name model : string) : Request :=
  {| req_model := model;
     req_messages :=
       [ {| role := "system";
            content := "You are an expert at categorizing PDF form fields." |};
         {| role := "user"; content := field_type_prompt field_name |} ];
     req_temperature := Qmake 0 1 |}.

(** The request [get_data_from_ai] sends. *)
Definition data_request (field_name field_type model : string) : Request :=
  {| req_model := model;
     req_messages :=
       [ {| role := "system"; content := "You are a data generation engine." |};
         {| role := "user"; content := data_prompt field_name field_type |} ];
     req_temperature := Qmake 7 10 |}.

(** The text the [try] block gets out of a service outcome: [None] when
    the call raised, the response has no choice, or the first choice has
    no content; in these three cases the block raises. *)
Definition response_text (o : Outcome) : option string :=
  match o with
  | Responds r =>
      match choices r with
      | c :: _ => message_content c
      | [] => None
      end
  | Fails _ => None
  end.

(** The normalisation of an answer: trimmed, lower-cased, separators
    turned into spaces. *)
Definition normalized (raw : string) : string :=
  Py.replace "_" " " (Py.lower (Py.strip raw)).

(** The key form of a label: words joined by underscores. *)
Definition key_form (label : string) : string := Py.replace " " "_" label.

(** An answer matches a known category when the key form of its
    normalisation is one of the labels. *)
Definition matches_category (raw : string) : Prop :=
  In (key_form (normalized raw)) field_categories.

(** [k] calls in a row, each on the world the previous one left. *)
Fixpoint repeat_call {A} (k : nat) (call : M A) (w : World)
    : list (Result A) * World :=
  match k with
  | O => ([], w)
  | S k' =>
      let (r, w1) := call w in
      let (rs, w2) := repeat_call k' call w1 in
      (r :: rs, w2)
  end.

(** The service raises on every request. *)
Definition always_fails (client : Client) : Prop :=
  forall n req, exists e, client n req = Fails e.

(** The text contains [yes] in some mix of upper and lower case. *)
Definition contains_yes_ci (s : string) : Prop :=
  exists pre y e s' post,
    Py.chars s = pre ++ y :: e :: s' :: post /\
    (y = "y"%char \/ y = "Y"%char) /\
    (e = "e"%char \/ e = "E"%char) /\
    (s' = "s"%char \/ s' = "S"%char).

(** A character [strip] removes in [get_data_from_ai]. *)
Definition space_or_dquote (c : ascii) : Prop :=
  c = " "%char \/ c = ascii_of_N 34.

(** The value [get_field_type_from_ai] computes from what the [try]
    block got. *)
Definition category_of (answer : option string) : string :=
  match answer with
  | Some raw =>
      if Py.in_list (key_form (normalized raw)) field_categories
      then normalized raw else "text"
  | None => "text"
  end.

(** The value [get_data_from_ai] computes from what the [try] block got. *)
Definition value_of (field_type : string) (answer : option string) : Value :=
  match answer with
  | Some raw =>
      if String.eqb field_type "boolean"
      then VBool (Py.contains "yes" (Py.lower (Py.strip_chars strip_set raw)))
      else VStr (Py.strip_chars strip_set raw)
  | None => VStr ""
  end.

(** The object [r] of a store, an annotation [a] of the template, is as
    it was or as one visit of the writer leaves it. *)
Definition seen_or_not (data : gmap string Value) (r : nat) (a : PdfDict)
    (objs : gmap nat PdfDict) : Prop :=
  objs !! r = Some a \/ objs !! r = Some (fill_annotation data a).

(** The object [r] of a store is as one visit of the writer leaves [a]. *)
Definition seen (data : gmap string Value) (r : nat) (a : PdfDict)
    (objs : gmap nat PdfDict) : Prop :=
  objs !! r = Some (fill_annotation data a).

(** Some page of the list has [r] among its annotations. *)
Definition listedb (pgs : list PdfPage) (r : nat) : bool :=
  existsb (fun page =>
             match Annots page with
             | Some refs => bool_decide (r ∈ refs)
             | None => false
             end) pgs.

(** The diagnostic lines of the two helpers. *)
Definition detection_error (e : Exception) : string :=
  "An error occurred while contacting OpenAI for field detection: "
  ++ exc_msg e.

Definition generation_error (e : Exception) : string :=
  "An error occurred while contacting OpenAI for data generation: "
  ++ exc_msg e.

(** The exception the [try] block of a helper ends with, if any. *)
Definition try_block_error (o : Outcome) : option Exception :=
  match o with
  | Fails e => Some e
  | Responds r =>
      match choices r with
      | [] => Some {| exc_class := IndexError;
                      exc_msg := "list index out of range" |}
      | c :: _ =>
          match message_content c with
          | Some _ => None
          | None =>
              Some {| exc_class := AttributeError;
                      exc_msg :=
                        "'NoneType' object has no attribute 'strip'" |}
          end
      end
  end.

(** Sample worlds and clients for the examples. *)
Definition empty_world : World :=
  {| api_calls := 0; stdout := []; fs := ∅ |}.

Definition answers (s : string) : Client :=
  fun _ _ => Responds {| choices := [ {| message_content := Some s |} ] |}.

Definition unreachable : Client :=
  fun _ _ => Fails {| exc_class := APIError; exc_msg := "Connection error." |}.

(** A form with a checkbox [agree], a text field [full_name] and a
    text field [phone], all on its only page. *)
Definition checkbox_agree : PdfDict :=
  <["/Subtype" := PdfName "Widget"]>
  (<["/T" := PdfString "(agree)"]>
  (<["/FT" := PdfName "Btn"]>
  (<["/V" := PdfName "Off"]> {["/AS" := PdfName "Off"]}))).

Definition text_full_name : PdfDict :=
  <["/Subtype" := PdfName "Widget"]>
  (<["/T" := PdfString "(full_name)"]> {["/FT" := PdfName "Tx"]}).

Definition text_phone : PdfDict :=
  <["/Subtype" := PdfName "Widget"]>
  (<["/T" := PdfString "(phone)"]>
  (<["/FT" := PdfName "Tx"]> {["/V" := PdfString "(555-0100)"]})).

Definition sample_form : PdfDocument :=
  {| objects := <[1 := checkbox_agree]>
                (<[2 := text_full_name]> {[3 := text_phone]});
     pages := [ {| Annots := Some [1; 2; 3] |} ];
     AcroForm := Some {["/Fields" := PdfObj "[1 0 R 2 0 R 3 0 R]"]} |}.

Definition sample_values : gmap string Value :=
  <["agree" := VBool true]> {["full_name" := VStr "Jane Doe"]}.

(** The same values under the raw form of the names. *)
Definition raw_keyed_values : gmap string Value :=
  <["(agree)" := VBool true]> {["(full_name)" := VStr "Jane Doe"]}.

Definition sample_config : Config :=
  Some {["openai" :=
           Some (<["api_key" := "sk-test"]> {["model" := "gpt-4o-mini"]})]}.

(** A disk holding the configuration and either form. *)
Definition disk_with (form : PdfDocument) : World :=
  {| api_calls := 0;
     stdout := [];
     fs := <["config.yaml" := YamlFile sample_config]>
           {["form.pdf" := PdfFile form]} |}.

Definition sample_args : Args :=
  {| input_file := "form.pdf";
     output_prefix := "filled_document";
     output_number := 2;
     config := "config.yaml" |}.

(** A document without pages or form. *)
Definition blank_document : PdfDocument :=
  {| objects := ∅; pages := []; AcroForm := None |}.

(** ** Strings *)

Lemma chars_text (l : list ascii) : Py.chars (Py.text l) = l.
Proof. apply list_ascii_of_string_of_list_ascii. Qed.

Lemma text_chars (s : string) : Py.text (Py.chars s) = s.
Proof. apply string_of_list_ascii_of_string. Qed.

Lemma in_list_In (x : string) (l : list string) :
  Py.in_list x l = true <-> In x l.
Proof.
  unfold Py.in_list. rewrite existsb_exists. split.
  - intros (y & Hy & Heq). apply String.eqb_eq in Heq. now subst.
  - intros H. exists x. split; [exact H | apply String.eqb_refl].
Qed.

Lemma map_replace_absent (a b : ascii) (l : list ascii) :
  ~ In a l -> map (fun c => if Ascii.eqb c a then b else c) l = l.
Proof.
  induction l as [|c l IH]; simpl; intros Hn; [reflexivity|].
  destruct (Ascii.eqb_spec c a) as [->|_].
  - exfalso. apply Hn. now left.
  - f_equal. apply IH. intros Hin. apply Hn. now right.
Qed.

Lemma replace_absent (a b : ascii) (s : string) :
  ~ In a (Py.chars s) -> Py.replace a b s = s.
Proof.
  intros H. unfold Py.replace. rewrite map_replace_absent by exact H.
  apply text_chars.
Qed.

Lemma starts_with_spec (sub l : list ascii) :
  Py.starts_with sub l = true <-> exists post, l = sub ++ post.
Proof.
  revert l. induction sub as [|a sub IH]; intros l; simpl.
  - split; [intros _; now exists l | reflexivity].
  - destruct l as [|c l].
    + split; [discriminate | intros (post & H); discriminate].
    + rewrite andb_true_iff, IH. split.
      * intros (Hac & post & ->). apply Ascii.eqb_eq in Hac. subst.
        now exists post.
      * intros (post & H). injection H as -> ->.
        split; [apply Ascii.eqb_refl | now exists post].
Qed.

Lemma find_in_spec (sub l : list ascii) :
  Py.find_in sub l = true <-> exists pre post, l = pre ++ sub ++ post.
Proof.
  induction l as [|c l IH].
  - simpl. rewrite orb_false_r, starts_with_spec. split.
    + intros (post & H). now exists [], post.
    + intros (pre & post & H). destruct pre; [now exists post|discriminate].
  - change (Py.find_in sub (c :: l))
      with (Py.starts_with sub (c :: l) || Py.find_in sub l).
    rewrite orb_true_iff, starts_with_spec, IH. split.
    + intros [(post & H) | (pre & post & ->)].
      * now exists [], post.
      * now exists (c :: pre), post.
    + intros (pre & post & H). destruct pre as [|c' pre].
      * left. now exists post.
      * right. injection H as _ ->. now exists pre, post.
Qed.

Lemma dropwhile_split (p : ascii -> bool) (l : list ascii) :
  exists pre,
    l = pre ++ Py.dropwhile p l /\
    Forall (fun c => p c = true) pre /\
    (forall c rest, Py.dropwhile p l = c :: rest -> p c = false).
Proof.
  induction l as [|c l (pre & Hl & Hpre & Hhd)]; simpl.
  - exists []. repeat split; [constructor | discriminate].
  - destruct (p c) eqn:Hc.
    + exists (c :: pre). repeat split.
      * simpl. now f_equal.
      * now constructor.
      * exact Hhd.
    + exists []. repeat split; [constructor|].
      intros c' rest H. injection H as <- _. exact Hc.
Qed.

Lemma rstrip_by_split (p : ascii -> bool) (l : list ascii) :
  exists post,
    l = Py.rstrip_by p l ++ post /\
    Forall (fun c => p c = true) post /\
    (forall c init, Py.rstrip_by p l = init ++ [c] -> p c = false).
Proof.
  unfold Py.rstrip_by.
  destruct (dropwhile_split p (rev l)) as (pre & Hl & Hpre & Hhd).
  exists (rev pre). repeat split.
  - rewrite <- rev_app_distr, <- Hl. symmetry. apply rev_involutive.
  - now apply List.Forall_rev.
  - intros c init H. apply (Hhd c (rev init)).
    rewrite <- (rev_involutive (Py.dropwhile p (rev l))), H.
    rewrite rev_app_distr. reflexivity.
Qed.

(** What stripping by a character class leaves: the input is the result
    between two runs of characters of the class, and the result neither
    starts nor ends with a character of the class. *)
Lemma strip_by_split (p : ascii -> bool) (l : list ascii) :
  exists pre post,
    l = pre ++ Py.strip_by p l ++ post /\
    Forall (fun c => p c = true) pre /\
    Forall (fun c => p c = true) post /\
    (forall c rest, Py.strip_by p l = c :: rest -> p c = false) /\
    (forall c init, Py.strip_by p l = init ++ [c] -> p c = false).
Proof.
  unfold Py.strip_by, Py.lstrip_by.
  destruct (dropwhile_split p l) as (pre & Hl & Hpre & Hhd).
  destruct (rstrip_by_split p (Py.dropwhile p l)) as (post & Hm & Hpost & Hlast).
  exists pre, post. repeat split; try assumption.
  - rewrite <- Hm. exact Hl.
  - intros c rest Hcore. apply (Hhd c (rest ++ post)).
    rewrite Hm at 1. rewrite Hcore. reflexivity.
Qed.

Lemma mem_char_strip_set (c : ascii) :
  Py.mem_char c strip_set = true <-> space_or_dquote c.
Proof.
  unfold Py.mem_char, strip_set, space_or_dquote. simpl.
  rewrite !orb_true_iff, !Ascii.eqb_eq. intuition discriminate.
Qed.

Lemma mem_char_strip_set_false (c : ascii) :
  Py.mem_char c strip_set = false <-> ~ space_or_dquote c.
Proof.
  rewrite <- mem_char_strip_set. destruct (Py.mem_char c strip_set).
  - split; [discriminate | intros H; now elim H].
  - split; [intros _ H; discriminate | reflexivity].
Qed.

Ltac each_ascii c :=
  destruct c as [[] [] [] [] [] [] [] []]; vm_compute;
  split; intros H;
  first [ discriminate H
        | now left | now right
        | reflexivity
        | destruct H as [H|H]; discriminate H ].

Lemma lower_char_y (c : ascii) :
  Py.lower_char c = "y"%char <-> c = "y"%char \/ c = "Y"%char.
Proof. each_ascii c. Qed.

Lemma lower_char_e (c : ascii) :
  Py.lower_char c = "e"%char <-> c = "e"%char \/ c = "E"%char.
Proof. each_ascii c. Qed.

Lemma lower_char_s (c : ascii) :
  Py.lower_char c = "s"%char <-> c = "s"%char \/ c = "S"%char.
Proof. each_ascii c. Qed.

(** The test of the source, [yes in data_value.lower()], is the
    case-insensitive search for [yes]. *)
Lemma contains_yes_lower (s : string) :
  Py.contains "yes" (Py.lower s) = true <-> contains_yes_ci s.
Proof.
  unfold Py.contains, Py.lower, contains_yes_ci.
  rewrite chars_text, find_in_spec. simpl. split.
  - intros (pre & post & H).
    apply map_eq_app in H as (pre' & rest & Hs & Hpre & Hrest).
    destruct rest as [|y [|e [|s' post']]]; try discriminate.
    simpl in Hrest. injection Hrest as Hy He Hs' Hpost.
    exists pre', y, e, s', post'. split; [exact Hs|].
    rewrite <- lower_char_y, <- lower_char_e, <- lower_char_s. auto.
  - intros (pre & y & e & s' & post & Hs & Hy & He & Hs').
    apply lower_char_y in Hy. apply lower_char_e in He.
    apply lower_char_s in Hs'.
    exists (map Py.lower_char pre), (map Py.lower_char post).
    rewrite Hs, map_app. simpl. now rewrite Hy, He, Hs'.
Qed.

(** ** Running the two AI helpers *)

Ltac run_try_block :=
  cbn [response_text choices message_content first_choice_content str_method
       ret raise exc_class any_Exception print fst snd].

Lemma get_field_type_from_ai_run field_name client model w :
  exists w',
    get_field_type_from_ai field_name client model w =
    (Returned (category_of (response_text
       (client (api_calls w) (field_type_request field_name model)))), w')
    /\ api_calls w' = S (api_calls w) /\ fs w' = fs w.
Proof.
  unfold get_field_type_from_ai, try_except, bind, chat_completions_create.
  fold (field_type_request field_name model).
  destruct (client (api_calls w) (field_type_request field_name model))
    as [[[|[[raw|]] rest]]|e].
  all: run_try_block; unfold category_of.
  all: eexists; split; [reflexivity | split; reflexivity].
Qed.

Lemma get_data_from_ai_run field_name field_type client model w :
  exists w',
    get_data_from_ai field_name field_type client model w =
    (Returned (value_of field_type (response_text
       (client (api_calls w) (data_request field_name field_type model)))), w')
    /\ api_calls w' = S (api_calls w) /\ fs w' = fs w.
Proof.
  unfold get_data_from_ai, try_except, bind, chat_completions_create.
  fold (data_request field_name field_type model).
  destruct (client (api_calls w) (data_request field_name field_type model))
    as [[[|[[raw|]] rest]]|e]; run_try_block; unfold value_of.
  1,3,4: eexists; split; [reflexivity | split; reflexivity].
  destruct (String.eqb field_type "boolean").
  - destruct (Py.contains _ _);
      eexists; (split; [reflexivity | split; reflexivity]).
  - eexists; split; [reflexivity | split; reflexivity].
Qed.

Lemma category_of_key_form (answer : option string) :
  In (key_form (category_of answer)) field_categories.
Proof.
  destruct answer as [raw|]; cbn [category_of].
  - destruct (Py.in_list _ _) eqn:H.
    + now apply in_list_In.
    + apply in_list_In. vm_compute. reflexivity.
  - apply in_list_In. vm_compute. reflexivity.
Qed.

Lemma always_fails_text (client : Client) :
  always_fails client -> forall n req, response_text (client n req) = None.
Proof. intros H n req. destruct (H n req) as (e & ->). reflexivity. Qed.

Lemma repeat_call_constant {A} (call : M A) (a : A) :
  (forall w, fst (call w) = Returned a) ->
  forall k w, fst (repeat_call k call w) = repeat (Returned a) k.
Proof.
  intros Hcall. induction k as [|k IH]; intros w; simpl; [reflexivity|].
  specialize (Hcall w). destruct (call w) as [r w1]. simpl in Hcall. subst r.
  specialize (IH w1). destruct (repeat_call k call w1) as [rs w2].
  simpl in *. now f_equal.
Qed.

(** ** The classifier *)

(** C1, as the code has it: [get_field_type_from_ai] always returns, and
    the key form of what it returns (spaces turned into underscores) is
    one of the 21 labels of [field_categories]; a returned value without
    a space is itself one of the labels. *)
Theorem classify_key_form_in_vocabulary field_name client model w :
  length field_categories = 21 /\
  exists c w',
    get_field_type_from_ai field_name client model w = (Returned c, w') /\
    In (key_form c) field_categories /\
    (~ In " "%char (Py.chars c) -> In c field_categories).
Proof.
  split; [reflexivity|].
  destruct (get_field_type_from_ai_run field_name client model w)
    as (w' & Hrun & _).
  eexists; exists w'. split; [exact Hrun|].
  split; [apply category_of_key_form|].
  intros Hsp. rewrite <- (replace_absent " " "_" _ Hsp).
  apply category_of_key_form.
Qed.

Lemma classify_key_form_in_vocabulary_witness :
  fst (get_field_type_from_ai "e-mail" (answers " Email ") "gpt-3.5-turbo"
         empty_world) = Returned "email" /\
  In "email" field_categories.
Proof.
  split; [vm_compute; reflexivity|].
  destruct (classify_key_form_in_vocabulary "e-mail" (answers " Email ")
              "gpt-3.5-turbo" empty_world) as (_ & c & w' & Hrun & _ & Hin).
  vm_compute in Hrun. injection Hrun as <- _.
  apply Hin. vm_compute. intuition discriminate.
Defined.

(** C1 fails as stated: for the answer [first_name] the classifier
    returns [first name], which is not a label of [field_categories];
    and the list has 21 labels, not 20. *)
Lemma classify_multiword_label_outside_vocabulary :
  fst (get_field_type_from_ai "First Name" (answers "first_name")
         "gpt-3.5-turbo" empty_world) = Returned "first name" /\
  ~ In "first name" field_categories /\
  length field_categories <> 20.
Proof.
  split; [vm_compute; reflexivity|]. split.
  - intros H. apply in_list_In in H. vm_compute in H. discriminate H.
  - vm_compute. discriminate.
Qed.

(** C5: [get_field_type_from_ai] never raises; it returns [text] when
    the service call raises, when the response carries no text, and
    when the answer matches no known category. *)
Theorem classify_never_raises field_name client model w :
  exists c w',
    get_field_type_from_ai field_name client model w = (Returned c, w') /\
    (forall e,
       client (api_calls w) (field_type_request field_name model) = Fails e ->
       c = "text") /\
    (response_text (client (api_calls w) (field_type_request field_name model))
       = None -> c = "text") /\
    (forall raw,
       response_text (client (api_calls w) (field_type_request field_name model))
         = Some raw ->
       ~ matches_category raw -> c = "text").
Proof.
  destruct (get_field_type_from_ai_run field_name client model w)
    as (w' & Hrun & _).
  eexists; exists w'. split; [exact Hrun|]. repeat split.
  - intros e ->. reflexivity.
  - intros ->. reflexivity.
  - intros raw -> Hno. unfold category_of.
    destruct (Py.in_list _ _) eqn:H; [|reflexivity].
    exfalso. apply Hno. now apply in_list_In.
Qed.

Lemma classify_never_raises_witness :
  fst (get_field_type_from_ai "Notes" (answers "a paragraph") "gpt-3.5-turbo"
         empty_world) = Returned "text" /\
  fst (get_field_type_from_ai "Notes" unreachable "gpt-3.5-turbo"
         empty_world) = Returned "text".
Proof.
  split.
  - destruct (classify_never_raises "Notes" (answers "a paragraph")
                "gpt-3.5-turbo" empty_world) as (c & w' & Hrun & _ & _ & Hno).
    rewrite Hrun. simpl. f_equal. apply (Hno "a paragraph"); [reflexivity|].
    intros H. apply in_list_In in H. vm_compute in H. discriminate H.
  - destruct (classify_never_raises "Notes" unreachable
                "gpt-3.5-turbo" empty_world) as (c & w' & Hrun & Herr & _).
    rewrite Hrun. simpl. f_equal. eapply Herr. reflexivity.
Defined.

(** ** The synthesizer *)

(** C2, as the code has it: [get_data_from_ai] always returns; when the
    [try] block gets a text out of the service, the value is a [bool]
    for the category [boolean] and a [str] for every other category;
    when the call fails the value is the empty [str] for every category,
    [boolean] included. *)
Theorem synthesize_type_by_category field_name field_type client model w :
  exists v w',
    get_data_from_ai field_name field_type client model w = (Returned v, w') /\
    (forall raw,
       response_text
         (client (api_calls w) (data_request field_name field_type model))
         = Some raw ->
       (field_type = "boolean" -> isinstance_bool v = true) /\
       (field_type <> "boolean" -> isinstance_str v = true)) /\
    (response_text
       (client (api_calls w) (data_request field_name field_type model))
       = None -> v = VStr "").
Proof.
  destruct (get_data_from_ai_run field_name field_type client model w)
    as (w' & Hrun & _).
  eexists; exists w'. split; [exact Hrun|]. split.
  - intros raw ->. unfold value_of.
    destruct (String.eqb_spec field_type "boolean") as [Heq|Hne]; split;
      intros H; try reflexivity; contradiction.
  - intros ->. reflexivity.
Qed.

Lemma synthesize_type_by_category_witness :
  isinstance_bool
    (match fst (get_data_from_ai "agree" "boolean" (answers "Yes")
                  "gpt-3.5-turbo" empty_world) with
     | Returned v => v
     | Raised _ => VStr ""
     end) = true.
Proof.
  destruct (synthesize_type_by_category "agree" "boolean" (answers "Yes")
              "gpt-3.5-turbo" empty_world) as (v & w' & Hrun & Hok & _).
  rewrite Hrun. simpl.
  apply (Hok "Yes"); reflexivity.
Defined.

(** C2 fails as stated: when the service call fails, the value for the
    category [boolean] is the empty string, not a boolean. *)
Lemma synthesize_boolean_fallback_is_str :
  fst (get_data_from_ai "agree" "boolean" unreachable "gpt-3.5-turbo"
         empty_world) = Returned (VStr "") /\
  isinstance_bool (VStr "") = false.
Proof. split; [vm_compute; reflexivity | reflexivity]. Qed.

(** C6: against a service that fails on every call, every one of any
    number of successive calls of [get_field_type_from_ai] returns
    [text], and every one of any number of successive calls of
    [get_data_from_ai] returns the empty string, whatever the category. *)
Theorem fallback_repeats client field_name field_type model k w :
  always_fails client ->
  fst (repeat_call k (get_field_type_from_ai field_name client model) w)
    = repeat (Returned "text") k /\
  fst (repeat_call k
         (get_data_from_ai field_name field_type client model) w)
    = repeat (Returned (VStr "")) k.
Proof.
  intros Hfail. split; apply repeat_call_constant; intros w0.
  - destruct (get_field_type_from_ai_run field_name client model w0)
      as (w' & -> & _).
    now rewrite (always_fails_text client Hfail).
  - destruct (get_data_from_ai_run field_name field_type client model w0)
      as (w' & -> & _).
    now rewrite (always_fails_text client Hfail).
Qed.

Lemma fallback_repeats_witness :
  always_fails unreachable /\
  fst (repeat_call 3
         (get_field_type_from_ai "agree" unreachable "gpt-3.5-turbo")
         empty_world)
    = [Returned "text"; Returned "text"; Returned "text"] /\
  fst (repeat_call 3
         (get_data_from_ai "agree" "boolean" unreachable "gpt-3.5-turbo")
         empty_world)
    = [Returned (VStr ""); Returned (VStr ""); Returned (VStr "")].
Proof.
  assert (H : always_fails unreachable) by (intros n req; eexists; reflexivity).
  split; [exact H|].
  exact (fallback_repeats unreachable "agree" "boolean" "gpt-3.5-turbo" 3
           empty_world H).
Defined.

(** C7: when the [try] block gets a text out of the service, for the
    category [boolean] the value is the boolean that is true exactly
    when the stripped text contains [yes] in any mix of cases; for every
    other category it is the stripped text itself. *)
Theorem synthesize_coercion field_name field_type client model w raw :
  response_text
    (client (api_calls w) (data_request field_name field_type model))
    = Some raw ->
  (field_type = "boolean" ->
   exists b,
     fst (get_data_from_ai field_name field_type client model w)
       = Returned (VBool b) /\
     (b = true <-> contains_yes_ci (Py.strip_chars strip_set raw))) /\
  (field_type <> "boolean" ->
   fst (get_data_from_ai field_name field_type client model w)
     = Returned (VStr (Py.strip_chars strip_set raw))).
Proof.
  intros Htext.
  destruct (get_data_from_ai_run field_name field_type client model w)
    as (w' & -> & _).
  rewrite Htext. unfold value_of. simpl fst. split.
  - intros ->. rewrite String.eqb_refl. eexists. split; [reflexivity|].
    apply contains_yes_lower.
  - intros Hne. apply String.eqb_neq in Hne. now rewrite Hne.
Qed.

Lemma synthesize_coercion_witness :
  fst (get_data_from_ai "agree" "boolean" (answers " YES, I do ")
         "gpt-3.5-turbo" empty_world) = Returned (VBool true) /\
  fst (get_data_from_ai "amount" "currency_amount" (answers " 12345.00 ")
         "gpt-3.5-turbo" empty_world) = Returned (VStr "12345.00").
Proof.
  split.
  - destruct (synthesize_coercion "agree" "boolean" (answers " YES, I do ")
                "gpt-3.5-turbo" empty_world " YES, I do " eq_refl)
      as [Hb _].
    destruct (Hb eq_refl) as (b & -> & Hiff). f_equal. f_equal.
    apply Hiff. exists [], "Y"%char, "E"%char, "S"%char.
    eexists. split; [vm_compute; reflexivity|]. auto.
  - destruct (synthesize_coercion "amount" "currency_amount"
                (answers " 12345.00 ") "gpt-3.5-turbo" empty_world
                " 12345.00 " eq_refl) as [_ Hs].
    rewrite Hs; [vm_compute; reflexivity | discriminate].
Defined.

(** C8, as the code has it: the text the synthesizer works on is the
    response without its leading and trailing spaces (U+0020) and double
    quotes (U+0022): the response is that text between two runs of such
    characters, and the text neither starts nor ends with one.  The
    boolean test and the returned string are both taken from it. *)
Theorem synthesize_strips_spaces_and_dquotes
    field_name field_type client model w raw :
  response_text
    (client (api_calls w) (data_request field_name field_type model))
    = Some raw ->
  exists pre core post,
    Py.chars raw = pre ++ Py.chars core ++ post /\
    Forall space_or_dquote pre /\
    Forall space_or_dquote post /\
    (forall c rest, Py.chars core = c :: rest -> ~ space_or_dquote c) /\
    (forall c init, Py.chars core = init ++ [c] -> ~ space_or_dquote c) /\
    fst (get_data_from_ai field_name field_type client model w)
      = Returned (if String.eqb field_type "boolean"
                  then VBool (Py.contains "yes" (Py.lower core))
                  else VStr core).
Proof.
  intros Htext.
  destruct (get_data_from_ai_run field_name field_type client model w)
    as (w' & -> & _).
  rewrite Htext. unfold value_of. simpl fst.
  destruct (strip_by_split (fun c => Py.mem_char c strip_set) (Py.chars raw))
    as (pre & post & Hsplit & Hpre & Hpost & Hhd & Hlast).
  exists pre, (Py.strip_chars strip_set raw), post.
  unfold Py.strip_chars at 1 2 3. rewrite chars_text.
  split; [exact Hsplit|].
  split; [eapply Forall_impl; [exact Hpre|]; intros c; apply mem_char_strip_set|].
  split; [eapply Forall_impl; [exact Hpost|]; intros c; apply mem_char_strip_set|].
  split; [intros c rest H; apply mem_char_strip_set_false; eapply Hhd; exact H|].
  split; [intros c init H; apply mem_char_strip_set_false; eapply Hlast; exact H|].
  destruct (String.eqb field_type "boolean"); reflexivity.
Qed.

Lemma synthesize_strips_spaces_and_dquotes_witness :
  exists pre post,
    Py.chars (" " ++ dquote ++ "Jane Doe" ++ dquote ++ " ")
      = pre ++ Py.chars "Jane Doe" ++ post /\
    fst (get_data_from_ai "full_name" "name"
           (answers (" " ++ dquote ++ "Jane Doe" ++ dquote ++ " "))
           "gpt-3.5-turbo" empty_world) = Returned (VStr "Jane Doe").
Proof.
  destruct (synthesize_strips_spaces_and_dquotes "full_name" "name"
              (answers (" " ++ dquote ++ "Jane Doe" ++ dquote ++ " "))
              "gpt-3.5-turbo" empty_world
              (" " ++ dquote ++ "Jane Doe" ++ dquote ++ " ") eq_refl)
    as (pre & core & post & Hsplit & _ & _ & _ & _ & Hrun).
  assert (Hcore : core = "Jane Doe").
  { vm_compute in Hrun. now injection Hrun as <-. }
  subst core. exists pre, post. split; [exact Hsplit|].
  vm_compute. reflexivity.
Defined.

(** C8 fails as stated: a tab, an apostrophe and a newline around the
    answer are whitespace and quote characters, and all three are kept. *)
Lemma synthesize_keeps_tab_apostrophe_newline :
  fst (get_data_from_ai "full_name" "name"
         (answers (tab ++ "'Jane Doe'" ++ newline))
         "gpt-3.5-turbo" empty_world)
    = Returned (VStr (tab ++ "'Jane Doe'" ++ newline)) /\
  Py.isspace (ascii_of_N 9) = true /\
  Py.isspace (ascii_of_N 10) = true.
Proof. repeat split; vm_compute; reflexivity. Qed.

(** ** The form writer *)

Lemma value_patch_keys (v : Value) (k : string) :
  k <> "/V" -> k <> "/AS" -> value_patch v !! k = None.
Proof.
  intros HV HAS. unfold value_patch.
  destruct v as [[]| |]; simpl;
    rewrite ?lookup_insert_ne, ?lookup_singleton_ne by congruence;
    reflexivity.
Qed.

Lemma widget_update_keys data (a patch : PdfDict) (k : string) :
  widget_update data a = Some patch ->
  k <> "/V" -> k <> "/AS" -> patch !! k = None.
Proof.
  unfold widget_update. intros H HV HAS.
  destruct (is_named_widget a); [|discriminate].
  destruct (widget_field_name a) as [name|]; [|discriminate].
  destruct (data !! name) as [v|]; [|discriminate].
  injection H as <-. now apply value_patch_keys.
Qed.

(** An update touches the entries [/V] and [/AS] only. *)
Lemma fill_annotation_other_keys data (a : PdfDict) (k : string) :
  k <> "/V" -> k <> "/AS" -> fill_annotation data a !! k = a !! k.
Proof.
  intros HV HAS. unfold fill_annotation, dict_update.
  destruct (widget_update data a) as [patch|] eqn:Hup; [|reflexivity].
  apply lookup_union_r. eapply widget_update_keys; eassumption.
Qed.

Lemma widget_update_fill_annotation data (a : PdfDict) :
  widget_update data (fill_annotation data a) = widget_update data a.
Proof.
  unfold widget_update, is_named_widget, widget_field_name.
  rewrite !(fill_annotation_other_keys data a "/Subtype") by discriminate.
  rewrite !(fill_annotation_other_keys data a "/T") by discriminate.
  reflexivity.
Qed.

(** Visiting an annotation a second time changes nothing. *)
Lemma fill_annotation_idempotent data (a : PdfDict) :
  fill_annotation data (fill_annotation data a) = fill_annotation data a.
Proof.
  unfold fill_annotation at 1. rewrite widget_update_fill_annotation.
  unfold fill_annotation, dict_update.
  destruct (widget_update data a) as [patch|]; [|reflexivity].
  rewrite map_union_assoc. f_equal. apply map_union_idemp.
Qed.

Lemma fill_ref_lookup data (objs : gmap nat PdfDict) (ref r : nat) :
  fill_ref data objs ref !! r =
  if decide (ref = r) then fill_annotation data <$> objs !! r else objs !! r.
Proof.
  unfold fill_ref. destruct (decide (ref = r)) as [->|Hne].
  - destruct (objs !! r) as [a|] eqn:Hr.
    + now rewrite lookup_insert_eq.
    + now rewrite Hr.
  - destruct (objs !! ref); [now rewrite lookup_insert_ne | reflexivity].
Qed.

Section Store.

Variable data : gmap string Value.
Variable r : nat.
Variable a : PdfDict.

Lemma fill_ref_seen_or_not objs ref :
  seen_or_not data r a objs -> seen_or_not data r a (fill_ref data objs ref).
Proof.
  unfold seen_or_not. rewrite fill_ref_lookup.
  destruct (decide (ref = r)); [|trivial].
  intros [-> | ->]; right; simpl; [reflexivity|].
  now rewrite fill_annotation_idempotent.
Qed.

Lemma fill_ref_seen objs ref :
  seen data r a objs -> seen data r a (fill_ref data objs ref).
Proof.
  unfold seen. rewrite fill_ref_lookup.
  destruct (decide (ref = r)); [|trivial].
  intros ->. simpl. now rewrite fill_annotation_idempotent.
Qed.

Lemma fill_ref_visit objs :
  seen_or_not data r a objs -> seen data r a (fill_ref data objs r).
Proof.
  unfold seen_or_not, seen. rewrite fill_ref_lookup.
  rewrite decide_True by reflexivity.
  intros [-> | ->]; simpl; [reflexivity|].
  now rewrite fill_annotation_idempotent.
Qed.

Lemma fill_refs_seen_or_not refs objs :
  seen_or_not data r a objs ->
  seen_or_not data r a (foldl (fill_ref data) objs refs).
Proof.
  revert objs. induction refs as [|ref refs IH]; intros objs H; simpl.
  - exact H.
  - apply IH. now apply fill_ref_seen_or_not.
Qed.

Lemma fill_refs_seen refs objs :
  seen data r a objs -> seen data r a (foldl (fill_ref data) objs refs).
Proof.
  revert objs. induction refs as [|ref refs IH]; intros objs H; simpl.
  - exact H.
  - apply IH. now apply fill_ref_seen.
Qed.

Lemma fill_refs_visit refs objs :
  r ∈ refs -> seen_or_not data r a objs ->
  seen data r a (foldl (fill_ref data) objs refs).
Proof.
  revert objs. induction refs as [|ref refs IH]; intros objs Hin H.
  - inversion Hin.
  - simpl. apply elem_of_cons in Hin as [<- | Hin].
    + apply fill_refs_seen. now apply fill_ref_visit.
    + apply IH; [exact Hin|]. now apply fill_ref_seen_or_not.
Qed.

Lemma fill_page_seen_or_not page objs :
  seen_or_not data r a objs ->
  seen_or_not data r a (fill_page data objs page).
Proof.
  unfold fill_page. destruct (Annots page); [|trivial].
  apply fill_refs_seen_or_not.
Qed.

Lemma fill_page_seen page objs :
  seen data r a objs -> seen data r a (fill_page data objs page).
Proof.
  unfold fill_page. destruct (Annots page); [|trivial].
  apply fill_refs_seen.
Qed.

Lemma fill_pages_seen_or_not pgs objs :
  seen_or_not data r a objs ->
  seen_or_not data r a (foldl (fill_page data) objs pgs).
Proof.
  revert objs. induction pgs as [|page pgs IH]; intros objs H; simpl.
  - exact H.
  - apply IH. now apply fill_page_seen_or_not.
Qed.

Lemma fill_pages_seen pgs objs :
  seen data r a objs -> seen data r a (foldl (fill_page data) objs pgs).
Proof.
  revert objs. induction pgs as [|page pgs IH]; intros objs H; simpl.
  - exact H.
  - apply IH. now apply fill_page_seen.
Qed.

Lemma fill_pages_visit pgs page refs objs :
  page ∈ pgs -> Annots page = Some refs -> r ∈ refs ->
  seen_or_not data r a objs -> seen data r a (foldl (fill_page data) objs pgs).
Proof.
  intros Hpage Hannots Hr. revert objs.
  induction pgs as [|p pgs IH]; intros objs H.
  - inversion Hpage.
  - simpl. apply elem_of_cons in Hpage as [<- | Hpage].
    + apply fill_pages_seen. unfold fill_page. rewrite Hannots.
      now apply fill_refs_visit.
    + apply IH; [exact Hpage|]. now apply fill_page_seen_or_not.
Qed.

(** An annotation of the template is, in the filled document, as it was
    or as one visit leaves it. *)
Lemma fill_template_object template :
  objects template !! r = Some a ->
  objects (fill_template template data) !! r = Some a \/
  objects (fill_template template data) !! r = Some (fill_annotation data a).
Proof.
  intros H. apply (fill_pages_seen_or_not (pages template)). now left.
Qed.

(** An annotation listed on some page is as one visit leaves it. *)
Lemma fill_template_listed template page refs :
  objects template !! r = Some a ->
  page ∈ pages template -> Annots page = Some refs -> r ∈ refs ->
  objects (fill_template template data) !! r
    = Some (fill_annotation data a).
Proof.
  intros H Hpage Hannots Hr.
  apply (fill_pages_visit (pages template) page refs); try assumption.
  now left.
Qed.

End Store.

Lemma fill_pdf_form_run input_pdf data w template :
  fs w !! input_pdf = Some (PdfFile template) ->
  fill_pdf_form input_pdf data w = (Returned (fill_template template data), w).
Proof.
  intros H. unfold fill_pdf_form, bind, pdfrw_PdfReader. now rewrite H.
Qed.

Lemma widget_update_named data (a : PdfDict) t :
  is_named_widget a = true -> a !! "/T" = Some t ->
  widget_update data a
    = value_patch <$> data !! Py.slice_1_m1 (obj_str t).
Proof.
  intros Hw Ht. unfold widget_update, widget_field_name.
  rewrite Hw, Ht. now destruct (data !! _).
Qed.

(** C3: for a widget annotation of the template whose field name is a
    key of the mapping, [fill_pdf_form] returns a document in which the
    annotation has [/V] and [/AS] both set to [/Yes] (value [True]) or
    both to [/Off] (value [False]) when the value is a [bool], and [/V]
    set to [str(value)] when it is not. *)
Theorem writer_sets_mapped_widget
    input_pdf data w template page refs r (a : PdfDict) t v :
  fs w !! input_pdf = Some (PdfFile template) ->
  page ∈ pages template -> Annots page = Some refs -> r ∈ refs ->
  objects template !! r = Some a ->
  is_named_widget a = true -> a !! "/T" = Some t ->
  data !! Py.slice_1_m1 (obj_str t) = Some v ->
  exists doc (a' : PdfDict),
    fill_pdf_form input_pdf data w = (Returned doc, w) /\
    objects doc !! r = Some a' /\
    match v with
    | VBool b =>
        a' !! "/V" = Some (PdfName (if b then "Yes" else "Off")) /\
        a' !! "/AS" = Some (PdfName (if b then "Yes" else "Off"))
    | _ => a' !! "/V" = Some (PyStr (py_str v))
    end.
Proof.
  intros Hfile Hpage Hannots Hr Ha Hw Ht Hv.
  exists (fill_template template data), (fill_annotation data a).
  split; [now apply fill_pdf_form_run|].
  split; [now apply (fill_template_listed data r a template page refs)|].
  unfold fill_annotation, dict_update.
  rewrite (widget_update_named data a t Hw Ht), Hv. simpl.
  destruct v as [[]|s|z]; unfold value_patch; simpl.
  - split; apply lookup_union_Some_l; reflexivity.
  - split; apply lookup_union_Some_l; reflexivity.
  - apply lookup_union_Some_l. apply lookup_singleton_eq.
  - apply lookup_union_Some_l. apply lookup_singleton_eq.
Qed.

Lemma writer_sets_mapped_widget_witness :
  exists doc (agree full_name : PdfDict),
    fill_pdf_form "form.pdf" sample_values (disk_with sample_form)
      = (Returned doc, disk_with sample_form) /\
    objects doc !! 1 = Some agree /\
    agree !! "/V" = Some (PdfName "Yes") /\
    agree !! "/AS" = Some (PdfName "Yes") /\
    objects doc !! 2 = Some full_name /\
    full_name !! "/V" = Some (PyStr "Jane Doe").
Proof.
  destruct (writer_sets_mapped_widget "form.pdf" sample_values
              (disk_with sample_form) sample_form
              {| Annots := Some [1; 2; 3] |} [1; 2; 3] 1 checkbox_agree
              (PdfString "(agree)") (VBool true))
    as (doc & agree & Hrun & Hobj & HV & HAS);
    [reflexivity | apply list_elem_of_here | reflexivity
    | apply list_elem_of_here | reflexivity | reflexivity | reflexivity
    | reflexivity |].
  destruct (writer_sets_mapped_widget "form.pdf" sample_values
              (disk_with sample_form) sample_form
              {| Annots := Some [1; 2; 3] |} [1; 2; 3] 2 text_full_name
              (PdfString "(full_name)") (VStr "Jane Doe"))
    as (doc' & full_name & Hrun' & Hobj' & HV');
    [reflexivity | apply list_elem_of_here | reflexivity
    | apply list_elem_of_further, list_elem_of_here | reflexivity
    | reflexivity | reflexivity | reflexivity |].
  rewrite Hrun in Hrun'. injection Hrun' as <-.
  exists doc, agree, full_name. auto 10.
Defined.

(** C4: a widget annotation of the template whose field name is not a
    key of the mapping is, in the document [fill_pdf_form] returns, the
    dictionary it was in the template. *)
Theorem writer_leaves_unmapped_widget
    input_pdf data w template r (a : PdfDict) t :
  fs w !! input_pdf = Some (PdfFile template) ->
  objects template !! r = Some a ->
  is_named_widget a = true -> a !! "/T" = Some t ->
  data !! Py.slice_1_m1 (obj_str t) = None ->
  exists doc,
    fill_pdf_form input_pdf data w = (Returned doc, w) /\
    objects doc !! r = Some a.
Proof.
  intros Hfile Ha Hw Ht Hv.
  exists (fill_template template data).
  split; [now apply fill_pdf_form_run|].
  assert (Hsame : fill_annotation data a = a).
  { unfold fill_annotation.
    now rewrite (widget_update_named data a t Hw Ht), Hv. }
  destruct (fill_template_object data r a template Ha) as [H | H].
  - exact H.
  - now rewrite Hsame in H.
Qed.

Lemma writer_leaves_unmapped_widget_witness :
  exists doc,
    fill_pdf_form "form.pdf" sample_values (disk_with sample_form)
      = (Returned doc, disk_with sample_form) /\
    objects doc !! 3 = Some text_phone.
Proof.
  apply (writer_leaves_unmapped_widget "form.pdf" sample_values
           (disk_with sample_form) sample_form 3 text_phone
           (PdfString "(phone)")); reflexivity.
Defined.

(** C10: the writer looks a widget up in the mapping under its [/T]
    entry without the first and the last character, not under the raw
    [/T] string.  When that stripped string is a key, a value is
    written: [/V] of the widget in the returned document is [/Yes],
    [/Off] or the string form of the mapped value, for a boolean [/AS]
    is set to the same name, and no other entry changes.  When it is
    not a key, nothing is written: [annotation.update] is not called
    and the widget is the template's. *)
Theorem writer_matches_stripped_T
    input_pdf data w template page refs r (a : PdfDict) t :
  fs w !! input_pdf = Some (PdfFile template) ->
  page ∈ pages template -> Annots page = Some refs -> r ∈ refs ->
  objects template !! r = Some a ->
  is_named_widget a = true -> a !! "/T" = Some t ->
  exists doc (a' : PdfDict),
    fill_pdf_form input_pdf data w = (Returned doc, w) /\
    objects doc !! r = Some a' /\
    match data !! Py.slice_1_m1 (obj_str t) with
    | Some v =>
        is_Some (widget_update data a) /\
        a' !! "/V" = Some match v with
                          | VBool true => PdfName "Yes"
                          | VBool false => PdfName "Off"
                          | _ => PyStr (py_str v)
                          end /\
        (isinstance_bool v = true -> a' !! "/AS" = a' !! "/V") /\
        (forall k, k <> "/V" -> k <> "/AS" -> a' !! k = a !! k)
    | None =>
        widget_update data a = None /\ a' = a
    end.
Proof.
  intros Hfile Hpage Hannots Hr Ha Hw Ht.
  pose proof (widget_update_named data a t Hw Ht) as Hup.
  exists (fill_template template data), (fill_annotation data a).
  split; [now apply fill_pdf_form_run|].
  split; [now apply (fill_template_listed data r a template page refs)|].
  destruct (data !! Py.slice_1_m1 (obj_str t)) as [v|] eqn:Hv;
    simpl in Hup.
  - split; [rewrite Hup; eauto|].
    split; [|split].
    + unfold fill_annotation, dict_update. rewrite Hup.
      apply lookup_union_Some_l.
      destruct v as [[]|s|z]; unfold value_patch; simpl;
        first [apply lookup_insert_eq | apply lookup_singleton_eq].
    + intros Hb. unfold fill_annotation, dict_update. rewrite Hup.
      destruct v as [[]|s|z]; try discriminate Hb;
        unfold value_patch; simpl.
      * transitivity (Some (PdfName "Yes")); [|symmetry];
          apply lookup_union_Some_l; reflexivity.
      * transitivity (Some (PdfName "Off")); [|symmetry];
          apply lookup_union_Some_l; reflexivity.
    + intros k HV HAS. now apply fill_annotation_other_keys.
  - split; [exact Hup|]. unfold fill_annotation. now rewrite Hup.
Qed.

Lemma writer_matches_stripped_T_witness :
  (exists doc,
     fill_pdf_form "form.pdf" raw_keyed_values (disk_with sample_form)
       = (Returned doc, disk_with sample_form) /\
     objects doc !! 1 = Some checkbox_agree) /\
  (exists doc (a' : PdfDict),
     fill_pdf_form "form.pdf" sample_values (disk_with sample_form)
       = (Returned doc, disk_with sample_form) /\
     objects doc !! 1 = Some a' /\
     a' !! "/V" = Some (PdfName "Yes") /\
     a' !! "/AS" = Some (PdfName "Yes") /\
     a' !! "/T" = Some (PdfString "(agree)")).
Proof.
  split.
  - destruct (writer_matches_stripped_T "form.pdf" raw_keyed_values
                (disk_with sample_form) sample_form
                {| Annots := Some [1; 2; 3] |} [1; 2; 3] 1 checkbox_agree
                (PdfString "(agree)"))
      as (doc & a' & Hrun & Hobj & Hm);
      [reflexivity | apply list_elem_of_here | reflexivity
      | apply list_elem_of_here | reflexivity | reflexivity | reflexivity |].
    assert (Hk : raw_keyed_values
                   !! Py.slice_1_m1 (obj_str (PdfString "(agree)")) = None)
      by reflexivity.
    rewrite Hk in Hm. destruct Hm as [_ ->].
    exists doc. split; [exact Hrun | exact Hobj].
  - destruct (writer_matches_stripped_T "form.pdf" sample_values
                (disk_with sample_form) sample_form
                {| Annots := Some [1; 2; 3] |} [1; 2; 3] 1 checkbox_agree
                (PdfString "(agree)"))
      as (doc & a' & Hrun & Hobj & Hm);
      [reflexivity | apply list_elem_of_here | reflexivity
      | apply list_elem_of_here | reflexivity | reflexivity | reflexivity |].
    assert (Hk : sample_values
                   !! Py.slice_1_m1 (obj_str (PdfString "(agree)"))
                 = Some (VBool true)) by reflexivity.
    rewrite Hk in Hm. destruct Hm as (_ & HV & HAS & Hrest).
    exists doc, a'. split; [exact Hrun|]. split; [exact Hobj|].
    split; [exact HV|]. split; [now rewrite (HAS eq_refl)|].
    rewrite Hrest by discriminate. reflexivity.
Defined.

(** ** The program *)

Lemma load_config_frame config_path w :
  snd (load_config config_path w) = w.
Proof.
  unfold load_config, bind, os_path_exists.
  destruct (bool_decide (is_Some (fs w !! config_path))); cbn [negb].
  - now destruct (fs w !! config_path) as [[cfg|doc]|].
  - reflexivity.
Qed.

(** Reading the configuration touches neither the disk nor the service. *)
Lemma setup_frame OpenAI args w r w1 :
  setup OpenAI args w = (r, w1) ->
  fs w1 = fs w /\ api_calls w1 = api_calls w.
Proof.
  unfold setup, try_except. unfold bind at 1.
  pose proof (load_config_frame (config args) w) as Hframe.
  destruct (load_config (config args) w) as [[cfg|e] w0];
    simpl in Hframe; subst w0.
  - unfold bind at 1. destruct cfg as [config_dict|]; cbn [get_method ret].
    + unfold bind at 1.
      destruct (default (Some ∅) (config_dict !! "openai"))
        as [openai_dict|]; cbn [get_method ret].
      * destruct (get_falsy _ _); cbn;
          intros H; injection H as _ <-; split; reflexivity.
      * cbn. intros H; injection H as _ <-; split; reflexivity.
    + cbn. intros H; injection H as _ <-; split; reflexivity.
  - destruct (exc_class e); cbn;
      intros H; injection H as _ <-; split; reflexivity.
Qed.

(** C9: when the run reaches the enumeration of the fields and the
    enumeration gives no field ([None] or an empty dictionary), [main]
    returns normally, the disk is as it was, no request was sent, and
    the last line printed says that there is nothing to fill. *)
Theorem main_without_fields_writes_nothing
    OpenAI get_fields args w client model_to_use w1 doc :
  setup OpenAI args w = (Returned (Some (client, model_to_use)), w1) ->
  fs w !! input_file args = Some (PdfFile doc) ->
  no_fields (get_fields doc) = true ->
  exists w',
    main OpenAI get_fields args w = (Returned tt, w') /\
    fs w' = fs w /\
    api_calls w' = api_calls w /\
    last (stdout w') = Some "No fields to fill in the provided PDF.".
Proof.
  intros Hsetup Hfile Hnone.
  destruct (setup_frame OpenAI args w _ _ Hsetup) as [Hfs Hcalls].
  unfold main, bind. rewrite Hsetup.
  unfold os_path_exists. rewrite Hfs, Hfile.
  rewrite bool_decide_true by (eexists; reflexivity).
  cbn [negb print]. unfold PyPDF2_get_fields.
  cbn [fs]. rewrite Hfs, Hfile, Hnone.
  eexists. split; [reflexivity|]. cbn [fs api_calls stdout].
  repeat split; try assumption.
  apply last_snoc.
Qed.

Lemma main_without_fields_writes_nothing_witness :
  exists w',
    main (fun _ _ => answers "text") (fun _ => None) sample_args
      (disk_with blank_document) = (Returned tt, w') /\
    fs w' = fs (disk_with blank_document) /\
    api_calls w' = 0.
Proof.
  destruct (main_without_fields_writes_nothing
              (fun _ _ => answers "text") (fun _ => None) sample_args
              (disk_with blank_document) (answers "text") "gpt-4o-mini"
              {| api_calls := 0;
                 stdout := ["Using OpenAI model: gpt-4o-mini"];
                 fs := fs (disk_with blank_document) |}
              blank_document)
    as (w' & Hrun & Hfs & Hcalls & _);
    [reflexivity | reflexivity | reflexivity |].
  exists w'. auto.
Defined.

(** With a field to fill the same run writes one file per requested
    document. *)
Example main_with_a_field_writes_documents :
  let w' := snd (main (fun _ _ => answers "Yes") (fun _ => Some ["agree"])
                   sample_args (disk_with sample_form)) in
  is_Some (fs w' !! "filled_document-1.pdf") /\
  is_Some (fs w' !! "filled_document-2.pdf") /\
  fs w' !! "filled_document-3.pdf" = None /\
  api_calls w' = 4.
Proof.
  vm_compute. repeat split; eexists; reflexivity.
Qed.

(** ** More on the form writer *)

Lemma fill_annotation_fmap_idempotent data (x : option PdfDict) :
  fill_annotation data <$> (fill_annotation data <$> x)
  = fill_annotation data <$> x.
Proof.
  destruct x as [a|]; simpl; [|reflexivity].
  now rewrite fill_annotation_idempotent.
Qed.

Lemma fill_refs_lookup data refs (objs : gmap nat PdfDict) (r : nat) :
  foldl (fill_ref data) objs refs !! r =
  if bool_decide (r ∈ refs)
  then fill_annotation data <$> objs !! r else objs !! r.
Proof.
  revert objs. induction refs as [|ref refs IH]; intros objs.
  - rewrite bool_decide_false by apply not_elem_of_nil. reflexivity.
  - cbn [foldl]. rewrite IH, fill_ref_lookup.
    destruct (decide (ref = r)) as [->|Hne].
    + rewrite (bool_decide_true (r ∈ r :: refs)) by apply list_elem_of_here.
      destruct (bool_decide (r ∈ refs)); [|reflexivity].
      apply fill_annotation_fmap_idempotent.
    + destruct (decide (r ∈ refs)) as [Hin|Hout].
      * rewrite !bool_decide_true; [reflexivity | | exact Hin].
        now apply list_elem_of_further.
      * rewrite !bool_decide_false; [reflexivity | | exact Hout].
        intros [Heq|Hin]%elem_of_cons; [congruence | contradiction].
Qed.

Lemma fill_pages_lookup data pgs (objs : gmap nat PdfDict) (r : nat) :
  foldl (fill_page data) objs pgs !! r =
  if listedb pgs r then fill_annotation data <$> objs !! r else objs !! r.
Proof.
  revert objs. induction pgs as [|page pgs IH]; intros objs.
  - reflexivity.
  - cbn [foldl listedb existsb]. fold (listedb pgs r). rewrite IH.
    unfold fill_page. destruct (Annots page) as [refs|].
    + rewrite fill_refs_lookup.
      destruct (bool_decide (r ∈ refs)), (listedb pgs r); cbn [orb];
        try reflexivity.
      apply fill_annotation_fmap_idempotent.
    + reflexivity.
Qed.

Lemma fill_template_objects template data (r : nat) :
  objects (fill_template template data) !! r =
  if listedb (pages template) r
  then fill_annotation data <$> objects template !! r
  else objects template !! r.
Proof. apply fill_pages_lookup. Qed.

(** X1: every object of the filled document is the template's object,
    visited once if some page lists it and not at all if none does;
    the order of the pages and repeated references do not matter. *)
Theorem fill_template_visits_listed_objects_once template data (r : nat) :
  objects (fill_template template data) !! r =
  if listedb (pages template) r
  then fill_annotation data <$> objects template !! r
  else objects template !! r.
Proof. apply fill_template_objects. Qed.

(** X2: the writer neither adds nor removes an object, and keeps the
    list of pages. *)
Theorem fill_template_same_objects template data :
  dom (objects (fill_template template data)) = dom (objects template) /\
  pages (fill_template template data) = pages template.
Proof.
  split; [|reflexivity].
  apply set_eq. intros r. rewrite !elem_of_dom, fill_template_objects.
  destruct (listedb _ _); [|reflexivity].
  now rewrite fmap_is_Some.
Qed.

(** X3: in every object of the document, every entry other than [/V]
    and [/AS] is what it was in the template. *)
Theorem fill_template_touches_V_and_AS_only template data (r : nat) k :
  k <> "/V" -> k <> "/AS" ->
  (objects (fill_template template data) !! r) ≫= (.!! k)
  = (objects template !! r) ≫= (.!! k).
Proof.
  intros HV HAS. rewrite fill_template_objects.
  destruct (listedb _ _); [|reflexivity].
  destruct (objects template !! r) as [a|]; simpl; [|reflexivity].
  now apply fill_annotation_other_keys.
Qed.

Lemma fill_template_touches_V_and_AS_only_witness :
  (objects (fill_template sample_form sample_values) !! 1) ≫= (.!! "/T")
  = Some (PdfString "(agree)").
Proof.
  rewrite (fill_template_touches_V_and_AS_only sample_form sample_values
             1 "/T"); [reflexivity | discriminate | discriminate].
Defined.



(** X5: a value that is not a [bool] changes [/V] only: the appearance
    state [/AS] and every other entry of the widget stay. *)
Theorem fill_annotation_text_keeps_AS data (a : PdfDict) t v k :
  is_named_widget a = true -> a !! "/T" = Some t ->
  data !! Py.slice_1_m1 (obj_str t) = Some v ->
  isinstance_bool v = false ->
  k <> "/V" ->
  fill_annotation data a !! k = a !! k.
Proof.
  intros Hw Ht Hv Hb Hk. unfold fill_annotation, dict_update.
  rewrite (widget_update_named data a t Hw Ht), Hv. simpl.
  apply lookup_union_r. unfold value_patch. rewrite Hb.
  now apply lookup_singleton_ne.
Qed.

Lemma fill_annotation_text_keeps_AS_witness :
  fill_annotation sample_values text_full_name !! "/FT"
  = Some (PdfName "Tx").
Proof.
  rewrite (fill_annotation_text_keeps_AS sample_values text_full_name
             (PdfString "(full_name)") (VStr "Jane Doe") "/FT");
    first [reflexivity | discriminate].
Defined.

Lemma mark_need_appearances_idempotent (acro : option PdfDict) :
  mark_need_appearances (mark_need_appearances acro)
  = mark_need_appearances acro.
Proof.
  destruct acro as [d|]; [|reflexivity]. simpl.
  destruct (dict_truthy d) eqn:Hd; simpl; [|now rewrite Hd].
  assert (Hne : dict_truthy
                  (dict_update d {["/NeedAppearances" := PdfObj "true"]})
                = true).
  { unfold dict_truthy, dict_update. apply negb_true_iff, Nat.eqb_neq.
    intros Hz. apply map_size_empty_iff in Hz.
    assert (H : ({["/NeedAppearances" := PdfObj "true"]} ∪ d : PdfDict)
                  !! "/NeedAppearances" = Some (PdfObj "true")).
    { apply lookup_union_Some_l, lookup_singleton_eq. }
    rewrite Hz, lookup_empty in H. discriminate H. }
  rewrite Hne. f_equal. unfold dict_update.
  now rewrite map_union_assoc, map_union_idemp.
Qed.

(** X6: filling a filled document again with the same mapping changes
    nothing. *)
Theorem fill_template_idempotent template data :
  fill_template (fill_template template data) data
  = fill_template template data.
Proof.
  destruct template as [objs pgs acro].
  unfold fill_template. cbn [objects pages AcroForm]. f_equal.
  - apply map_eq. intros r. rewrite !fill_pages_lookup.
    destruct (listedb pgs r); [|reflexivity].
    apply fill_annotation_fmap_idempotent.
  - apply mark_need_appearances_idempotent.
Qed.

(** X7: a form dictionary that is present and not empty gets
    [/NeedAppearances] set to [true] and keeps its other entries; a
    document without one still has none. *)
Theorem fill_template_need_appearances template data :
  (forall d : PdfDict,
     AcroForm template = Some d -> d <> ∅ ->
     exists d' : PdfDict,
       AcroForm (fill_template template data) = Some d' /\
       d' !! "/NeedAppearances" = Some (PdfObj "true") /\
       forall k, k <> "/NeedAppearances" -> d' !! k = d !! k) /\
  (AcroForm template = None ->
   AcroForm (fill_template template data) = None).
Proof.
  split.
  - intros d Hd Hne. cbn [fill_template AcroForm]. rewrite Hd. simpl.
    assert (Ht : dict_truthy d = true).
    { unfold dict_truthy. apply negb_true_iff, Nat.eqb_neq.
      intros Hz. now apply map_size_empty_iff in Hz. }
    rewrite Ht. eexists. split; [reflexivity|]. unfold dict_update. split.
    + apply lookup_union_Some_l, lookup_singleton_eq.
    + intros k Hk. apply lookup_union_r. now apply lookup_singleton_ne.
  - intros Hd. cbn [fill_template AcroForm]. now rewrite Hd.
Qed.

Lemma fill_template_need_appearances_witness :
  exists d' : PdfDict,
    AcroForm (fill_template sample_form sample_values) = Some d' /\
    d' !! "/NeedAppearances" = Some (PdfObj "true") /\
    d' !! "/Fields" = Some (PdfObj "[1 0 R 2 0 R 3 0 R]").
Proof.
  destruct (fill_template_need_appearances sample_form sample_values)
    as [Hsome _].
  destruct (Hsome {["/Fields" := PdfObj "[1 0 R 2 0 R 3 0 R]"]} eq_refl)
    as (d' & Hd' & Hneed & Hrest).
  { intros H.
    apply (f_equal (fun m : PdfDict => m !! "/Fields")) in H.
    rewrite lookup_singleton_eq, lookup_empty in H. discriminate H. }
  exists d'. split; [exact Hd'|]. split; [exact Hneed|].
  rewrite Hrest by discriminate. apply lookup_singleton_eq.
Defined.

(** ** More on the two AI helpers *)

(** X8: a call of [get_field_type_from_ai] sends exactly one request, so
    a failure is not retried; it leaves the disk alone, and prints its
    diagnostic line exactly when the [try] block raised. *)
Theorem classify_effects field_name client model w :
  exists c w',
    get_field_type_from_ai field_name client model w = (Returned c, w') /\
    api_calls w' = S (api_calls w) /\
    fs w' = fs w /\
    stdout w' =
      stdout w ++
      match try_block_error
              (client (api_calls w) (field_type_request field_name model)) with
      | Some e => [detection_error e]
      | None => []
      end.
Proof.
  unfold get_field_type_from_ai, try_except, bind, chat_completions_create.
  fold (field_type_request field_name model).
  destruct (client (api_calls w) (field_type_request field_name model))
    as [[[|[[raw|]] rest]]|e]; run_try_block;
    cbn [try_block_error choices message_content];
    do 2 eexists; (split; [reflexivity|]);
    cbn [api_calls fs stdout]; rewrite ?app_nil_r; auto.
Qed.

(** X9: a call of [get_data_from_ai] sends exactly one request, leaves
    the disk alone, and prints its diagnostic line exactly when the
    [try] block raised. *)
Theorem synthesize_effects field_name field_type client model w :
  exists v w',
    get_data_from_ai field_name field_type client model w
      = (Returned v, w') /\
    api_calls w' = S (api_calls w) /\
    fs w' = fs w /\
    stdout w' =
      stdout w ++
      match try_block_error
              (client (api_calls w)
                 (data_request field_name field_type model)) with
      | Some e => [generation_error e]
      | None => []
      end.
Proof.
  unfold get_data_from_ai, try_except, bind, chat_completions_create.
  fold (data_request field_name field_type model).
  destruct (client (api_calls w) (data_request field_name field_type model))
    as [[[|[[raw|]] rest]]|e]; run_try_block;
    cbn [try_block_error choices message_content];
    try destruct (String.eqb field_type "boolean");
    do 2 eexists; (split; [reflexivity|]);
    cbn [api_calls fs stdout]; rewrite ?app_nil_r; auto.
Qed.

Lemma dropwhile_all (p : ascii -> bool) (pre l : list ascii) :
  Forall (fun c => p c = true) pre ->
  Py.dropwhile p (pre ++ l) = Py.dropwhile p l.
Proof.
  induction 1 as [|c pre Hc _ IH]; simpl; [reflexivity|].
  now rewrite Hc.
Qed.

Lemma dropwhile_stop (p : ascii -> bool) (l : list ascii) :
  match l with c :: _ => negb (p c) | [] => true end = true ->
  Py.dropwhile p l = l.
Proof.
  destruct l as [|c l]; simpl; [reflexivity|].
  intros H. apply negb_true_iff in H. now rewrite H.
Qed.

(** Stripping a text padded on both sides with characters of the class
    gives the text back, when it does not itself start or end with one. *)
Lemma strip_by_padded (p : ascii -> bool) (pre core post : list ascii) :
  Forall (fun c => p c = true) pre ->
  Forall (fun c => p c = true) post ->
  match core with c :: _ => negb (p c) | [] => true end = true ->
  match rev core with c :: _ => negb (p c) | [] => true end = true ->
  Py.strip_by p (pre ++ core ++ post) = core.
Proof.
  intros Hpre Hpost Hhd Hlast.
  unfold Py.strip_by, Py.lstrip_by, Py.rstrip_by.
  rewrite (dropwhile_all p pre _ Hpre).
  destruct core as [|c core].
  - simpl. rewrite <- (app_nil_r post).
    rewrite (dropwhile_all p post [] Hpost). reflexivity.
  - rewrite (dropwhile_stop p ((c :: core) ++ post)) by exact Hhd.
    rewrite rev_app_distr.
    rewrite dropwhile_all by now apply List.Forall_rev.
    rewrite dropwhile_stop by exact Hlast.
    apply rev_involutive.
Qed.

(** X10: every label of the vocabulary, answered with any whitespace
    around it, is recognised: the classifier returns the label, with
    its underscores written as spaces. *)
Theorem classify_recognises_padded_label
    field_name client model w label pre post :
  In label field_categories ->
  Forall (fun c => Py.isspace c = true) pre ->
  Forall (fun c => Py.isspace c = true) post ->
  response_text (client (api_calls w) (field_type_request field_name model))
    = Some (Py.text (pre ++ Py.chars label ++ post)) ->
  fst (get_field_type_from_ai field_name client model w)
    = Returned (Py.replace "_" " " label).
Proof.
  intros Hin Hpre Hpost Htext.
  destruct (get_field_type_from_ai_run field_name client model w)
    as (w' & -> & _).
  rewrite Htext. cbn [fst category_of]. unfold normalized, Py.strip.
  rewrite chars_text.
  assert (Hstrip : Py.strip_by Py.isspace (pre ++ Py.chars label ++ post)
                   = Py.chars label).
  { apply strip_by_padded; try assumption;
      simpl in Hin; repeat (destruct Hin as [<-|Hin]; [reflexivity|]);
      contradiction. }
  rewrite Hstrip, text_chars.
  simpl in Hin. repeat (destruct Hin as [<-|Hin]; [reflexivity|]).
  contradiction.
Qed.

Lemma classify_recognises_padded_label_witness :
  fst (get_field_type_from_ai "Zip" (answers (" zip_code" ++ newline))
         "gpt-3.5-turbo" empty_world)
    = Returned "zip code".
Proof.
  apply (classify_recognises_padded_label "Zip"
           (answers (" zip_code" ++ newline)) "gpt-3.5-turbo" empty_world
           "zip_code" [" "%char] [ascii_of_N 10]).
  - vm_compute. tauto.
  - repeat constructor.
  - repeat constructor.
  - reflexivity.
Defined.

(** ** More on the program *)

Lemma collect_data_run client model_to_use field_names
    (data : gmap string Value) w :
  exists (data' : gmap string Value) w',
    collect_data client model_to_use field_names data w
      = (Returned data', w') /\
    api_calls w' = api_calls w + 2 * length field_names /\
    fs w' = fs w /\
    dom data' = dom data ∪ list_to_set field_names.
Proof.
  revert data w. induction field_names as [|f rest IH]; intros data w.
  - exists data, w. repeat split; [simpl; lia | set_solver].
  - cbn [collect_data]. unfold bind.
    destruct (get_field_type_from_ai_run f client model_to_use w)
      as (w1 & -> & Hc1 & Hf1).
    cbn [print].
    match goal with
    | |- context [get_data_from_ai f ?ft client model_to_use ?w0] =>
        destruct (get_data_from_ai_run f ft client model_to_use w0)
          as (w2 & -> & Hc2 & Hf2); set (v := value_of ft _) in *
    end.
    cbn [api_calls fs] in Hc2, Hf2.
    match goal with
    | |- context [collect_data client model_to_use rest ?d ?w0] =>
        destruct (IH d w0) as (data' & w' & -> & Hc & Hf & Hd)
    end.
    cbn [api_calls fs] in Hc, Hf.
    exists data', w'. split; [reflexivity|]. split; [simpl; lia|].
    split; [congruence|].
    rewrite Hd, dom_insert_L. set_solver.
Qed.

(** X11: collecting the values of one document never raises, sends
    two requests per field, leaves the disk alone, and returns a
    mapping whose keys are those it started with and the field names. *)
Theorem collect_data_maps_every_field client model_to_use field_names
    (data : gmap string Value) w :
  exists (data' : gmap string Value) w',
    collect_data client model_to_use field_names data w
      = (Returned data', w') /\
    api_calls w' = api_calls w + 2 * length field_names /\
    fs w' = fs w /\
    dom data' = dom data ∪ list_to_set field_names.
Proof. apply collect_data_run. Qed.

(** What [main] does once the client is set up and the form has
    fields: the loop over the documents on the world the notices left. *)
Lemma main_reaches_loop
    OpenAI get_fields args w client model_to_use w1 doc field_names :
  setup OpenAI args w = (Returned (Some (client, model_to_use)), w1) ->
  fs w !! input_file args = Some (PdfFile doc) ->
  get_fields doc = Some field_names -> field_names <> [] ->
  exists w2,
    fs w2 = fs w /\ api_calls w2 = api_calls w /\
    main OpenAI get_fields args w =
    for_each (py_range 1 (output_number args + 1))
      (generate_document args client model_to_use field_names) w2.
Proof.
  intros Hsetup Hfile Hfields Hne.
  destruct (setup_frame OpenAI args w _ _ Hsetup) as [Hfs Hcalls].
  unfold main. unfold bind at 1. rewrite Hsetup.
  unfold bind at 1. unfold os_path_exists. rewrite Hfs, Hfile.
  rewrite bool_decide_true by (eexists; reflexivity).
  cbn [negb]. unfold bind at 1. cbn [print].
  unfold bind at 1. unfold PyPDF2_get_fields. cbn [fs].
  rewrite Hfs, Hfile, Hfields.
  destruct field_names as [|f rest]; [contradiction|].
  cbn [no_fields default]. unfold bind at 1. cbn [print].
  eexists. split; [|split]. 3: reflexivity.
  all: cbn [fs api_calls]; first [assumption | reflexivity].
Qed.

(** X15: a requested number of documents that is zero or negative is not
    an error: [main] returns normally, sends no request and writes no
    file. *)
Theorem main_with_no_document_requested
    OpenAI get_fields args w client model_to_use w1 doc field_names :
  setup OpenAI args w = (Returned (Some (client, model_to_use)), w1) ->
  fs w !! input_file args = Some (PdfFile doc) ->
  get_fields doc = Some field_names -> field_names <> [] ->
  (output_number args <= 0)%Z ->
  exists w',
    main OpenAI get_fields args w = (Returned tt, w') /\
    fs w' = fs w /\ api_calls w' = api_calls w.
Proof.
  intros Hsetup Hfile Hfields Hne Hzero.
  destruct (main_reaches_loop OpenAI get_fields args w client model_to_use
              w1 doc field_names Hsetup Hfile Hfields Hne)
    as (w2 & Hfs & Hcalls & ->).
  assert (Hrange : py_range 1 (output_number args + 1) = []).
  { unfold py_range. replace (Z.to_nat _) with 0 by lia. reflexivity. }
  rewrite Hrange. exists w2. auto.
Qed.

Lemma main_with_no_document_requested_witness :
  exists w',
    main (fun _ _ => answers "Yes") (fun _ => Some ["agree"; "full_name"])
      {| input_file := "form.pdf"; output_prefix := "filled_document";
         output_number := 0; config := "config.yaml" |}
      (disk_with sample_form) = (Returned tt, w') /\
    fs w' = fs (disk_with sample_form) /\ api_calls w' = 0.
Proof.
  apply (main_with_no_document_requested
           (fun _ _ => answers "Yes") (fun _ => Some ["agree"; "full_name"])
           {| input_file := "form.pdf"; output_prefix := "filled_document";
              output_number := 0; config := "config.yaml" |}
           (disk_with sample_form) (answers "Yes") "gpt-4o-mini"
           {| api_calls := 0;
              stdout := ["Using OpenAI model: gpt-4o-mini"];
              fs := fs (disk_with sample_form) |}
           sample_form ["agree"; "full_name"]);
    first [reflexivity | discriminate | simpl; lia].
Defined.

(** ** How [main] stops early *)

Lemma load_config_missing config_path w :
  fs w !! config_path = None ->
  load_config config_path w =
  raise FileNotFoundError
    ("Configuration file not found at: " ++ config_path) w.
Proof.
  intros Hnone. unfold load_config, bind, os_path_exists. rewrite Hnone.
  rewrite bool_decide_false by (intros [x Hx]; discriminate Hx).
  reflexivity.
Qed.

Lemma load_config_found config_path w (cfg : Config) :
  fs w !! config_path = Some (YamlFile cfg) ->
  load_config config_path w = (Returned cfg, w).
Proof.
  intros Hcfg. unfold load_config, bind, os_path_exists. rewrite Hcfg.
  rewrite bool_decide_true by (eexists; reflexivity).
  cbn [negb]. now rewrite Hcfg.
Qed.

(** X16: without a configuration file [main] prints the error of
    [load_config] and returns normally; nothing is written and no
    request is sent. *)
Theorem main_without_configuration_file OpenAI get_fields args w :
  fs w !! config args = None ->
  main OpenAI get_fields args w =
  (Returned tt,
   {| api_calls := api_calls w;
      stdout := stdout w ++
                [("Error: Configuration file not found at: "
                  ++ config args)%string];
      fs := fs w |}).
Proof.
  intros Hnone. unfold main. unfold bind at 1.
  unfold setup, try_except. unfold bind at 1.
  rewrite (load_config_missing _ _ Hnone). reflexivity.
Qed.

Lemma main_without_configuration_file_witness :
  main (fun _ _ => answers "Yes") (fun _ => None) sample_args empty_world
  = (Returned tt,
     {| api_calls := 0;
        stdout := ["Error: Configuration file not found at: config.yaml"];
        fs := ∅ |}).
Proof.
  apply (main_without_configuration_file
           (fun _ _ => answers "Yes") (fun _ => None) sample_args
           empty_world).
  reflexivity.
Defined.

(** X17: when the configuration is a mapping without an [openai] key,
    or its [openai] entry is a mapping without [api_key] or with an
    empty one, [main] prints that the key is missing and returns
    normally; nothing is written and no request is sent. *)
Theorem main_without_api_key OpenAI get_fields args w
    (config_dict : gmap string (option (gmap string string))) :
  fs w !! config args = Some (YamlFile (Some config_dict)) ->
  config_dict !! "openai" = None \/
  (exists openai_dict : gmap string string,
     config_dict !! "openai" = Some (Some openai_dict) /\
     (openai_dict !! "api_key" = None \/
      openai_dict !! "api_key" = Some "")) ->
  main OpenAI get_fields args w =
  (Returned tt,
   {| api_calls := api_calls w;
      stdout := stdout w ++
                ["Error: OpenAI API key is missing from config.yaml"];
      fs := fs w |}).
Proof.
  intros Hcfg Hkey. unfold main. unfold bind at 1.
  unfold setup, try_except. unfold bind at 1.
  rewrite (load_config_found _ _ _ Hcfg).
  unfold bind at 1. cbn [get_method ret]. unfold bind at 1.
  destruct Hkey as [-> | (openai_dict & -> & Hkey)];
    cbn [default from_option id get_method ret].
  - reflexivity.
  - assert (Hfalsy : get_falsy openai_dict "api_key" = true).
    { unfold get_falsy. destruct Hkey as [-> | ->]; reflexivity. }
    rewrite Hfalsy. reflexivity.
Qed.

Lemma main_without_api_key_witness :
  main (fun _ _ => answers "Yes") (fun _ => None) sample_args
    {| api_calls := 0; stdout := [];
       fs := {["config.yaml" :=
                 YamlFile
                   (Some {["openai" :=
                             Some {["model" := "gpt-4o-mini"]}]})]} |}
  = (Returned tt,
     {| api_calls := 0;
        stdout := ["Error: OpenAI API key is missing from config.yaml"];
        fs := {["config.yaml" :=
                  YamlFile
                    (Some {["openai" :=
                              Some {["model" := "gpt-4o-mini"]}]})]} |}).
Proof.
  rewrite (main_without_api_key
             (fun _ _ => answers "Yes") (fun _ => None) sample_args
             {| api_calls := 0; stdout := [];
                fs := {["config.yaml" :=
                          YamlFile
                            (Some {["openai" :=
                                      Some {["model" := "gpt-4o-mini"]}]})]} |}
             {["openai" := Some {["model" := "gpt-4o-mini"]}]});
    [reflexivity | reflexivity |].
  right. exists {["model" := "gpt-4o-mini"]}. split; [reflexivity|].
  left. reflexivity.
Defined.

(** X19: when the configuration file is an empty document, or its
    [openai] key has nothing under it, the [get] call on [None] raises
    [AttributeError]; the handler of [main] does not catch it, so [main]
    ends with that exception, having printed and written nothing. *)
Theorem main_with_null_configuration OpenAI get_fields args w :
  fs w !! config args = Some (YamlFile None) \/
  (exists config_dict : gmap string (option (gmap string string)),
     fs w !! config args = Some (YamlFile (Some config_dict)) /\
     config_dict !! "openai" = Some None) ->
  main OpenAI get_fields args w =
  (Raised {| exc_class := AttributeError;
             exc_msg := "'NoneType' object has no attribute 'get'" |},
   w).
Proof.
  intros Hcfg. unfold main. unfold bind at 1.
  unfold setup, try_except. unfold bind at 1.
  destruct Hcfg as [Hcfg | (config_dict & Hcfg & Hnull)];
    rewrite (load_config_found _ _ _ Hcfg).
  - reflexivity.
  - unfold bind at 1. cbn [get_method ret]. unfold bind at 1.
    rewrite Hnull. reflexivity.
Qed.

Lemma main_with_null_configuration_witness :
  main (fun _ _ => answers "Yes") (fun _ => None) sample_args
    {| api_calls := 0; stdout := [];
       fs := {["config.yaml" := YamlFile None]} |}
  = (Raised {| exc_class := AttributeError;
               exc_msg := "'NoneType' object has no attribute 'get'" |},
     {| api_calls := 0; stdout := [];
        fs := {["config.yaml" := YamlFile None]} |}).
Proof.
  apply (main_with_null_configuration
           (fun _ _ => answers "Yes") (fun _ => None) sample_args
           {| api_calls := 0; stdout := [];
              fs := {["config.yaml" := YamlFile None]} |}).
  left. reflexivity.
Defined.

(** X18: when the client is set up and the input file does not exist,
    [main] prints that it was not found and returns normally; nothing
    is written and no request is sent. *)
Theorem main_without_input_file
    OpenAI get_fields args w client model_to_use w1 :
  setup OpenAI args w = (Returned (Some (client, model_to_use)), w1) ->
  fs w !! input_file args = None ->
  exists w',
    main OpenAI get_fields args w = (Returned tt, w') /\
    fs w' = fs w /\
    api_calls w' = api_calls w /\
    stdout w' =
      stdout w1 ++
      [("Error: Input file not found at '" ++ input_file args ++ "'")%string].
Proof.
  intros Hsetup Hnone.
  destruct (setup_frame OpenAI args w _ _ Hsetup) as [Hfs Hcalls].
  unfold main. unfold bind at 1. rewrite Hsetup.
  unfold bind at 1. unfold os_path_exists. rewrite Hfs, Hnone.
  rewrite bool_decide_false by (intros [x Hx]; discriminate Hx).
  cbn [negb print]. eexists. split; [reflexivity|].
  cbn [fs api_calls stdout]. auto.
Qed.

Lemma main_without_input_file_witness :
  exists w',
    main (fun _ _ => answers "Yes") (fun _ => None) sample_args
      {| api_calls := 0; stdout := [];
         fs := {["config.yaml" := YamlFile sample_config]} |}
      = (Returned tt, w') /\
    stdout w' = ["Using OpenAI model: gpt-4o-mini";
                 "Error: Input file not found at 'form.pdf'"].
Proof.
  destruct (main_without_input_file
              (fun _ _ => answers "Yes") (fun _ => None) sample_args
              {| api_calls := 0; stdout := [];
                 fs := {["config.yaml" := YamlFile sample_config]} |}
              (answers "Yes") "gpt-4o-mini"
              {| api_calls := 0;
                 stdout := ["Using OpenAI model: gpt-4o-mini"];
                 fs := {["config.yaml" := YamlFile sample_config]} |})
    as (w' & Hrun & _ & _ & Hout); [reflexivity | reflexivity |].
  exists w'. split; [exact Hrun | exact Hout].
Defined.
